(** * BrowserCrawler: the per-request pipeline of [src/crawlers/browser_crawler.js]

    A shallow embedding of the [BrowserCrawler] class.  The crawler's own
    code is translated statement by statement into a small state-and-exception
    monad; every call the crawler makes to a collaborator (browser pool, page,
    session, proxy configuration, launch context, user supplied functions) is
    recorded, in order, in a call log, the way a test spy would record it. *)

From Stdlib Require Import ZArith Lia Floats.
From stdpp Require Import base option list functions gmap strings pretty.

#[local] Set Warnings "-inexact-float".

Module BrowserCrawler.

(** ** JavaScript values used by the crawler *)

(** [new Error(message)], and the engine's own [TypeError] (a property read or a
    method call on [undefined], or a call of something that is no function). *)
Inductive Error :=
  | JsError (message : string)
  | TypeError.

Inductive Outcome (A : Type) :=
  | Ok (a : A)
  | Throw (e : Error).
Arguments Ok {A} a.
Arguments Throw {A} e.

(** A JavaScript number: an IEEE 754 double, with the arithmetic of the
    language ([*] and [/] round to nearest, ties to even). *)
Abbreviation Number := float.

(** A promise as seen by the code that waits for it: it settles after some
    milliseconds, or never does. *)
Inductive Promise (A : Type) :=
  | Settles (elapsedMillis : Number) (o : Outcome A)
  | NeverSettles.
Arguments Settles {A} elapsedMillis o.
Arguments NeverSettles {A}.

(** Handles of collaborator objects.  A session's [id] and a controller's
    [launchContext] are fixed when the object is created. *)
Record Session := { session_ref : nat; session_id : string }.
Record ProxyInfo := { proxy_url : string; proxy_sessionId : option string }.
Record BrowserController := { controller_ref : nat; launchContext : nat }.
Definition Page := nat.
Definition Cookies := list (string * string).

#[global] Instance Session_eq_dec : EqDecision Session.
Proof. solve_decision. Defined.
#[global] Instance ProxyInfo_eq_dec : EqDecision ProxyInfo.
Proof. solve_decision. Defined.
#[global] Instance BrowserController_eq_dec : EqDecision BrowserController.
Proof. solve_decision. Defined.

(** What a field of an option bag (launch context, navigation options) holds. *)
Inductive Value :=
  | VUndefined
  | VBool (b : bool)
  | VNum (n : Z)
  | VStr (s : string)
  | VSession (s : Session)
  | VProxyInfo (p : ProxyInfo).

#[global] Instance Value_eq_dec : EqDecision Value.
Proof. solve_decision. Defined.

Abbreviation Obj := (gmap string Value).

(** JavaScript truthiness. *)
Definition truthy (v : Value) : bool :=
  match v with
  | VUndefined => false
  | VBool b => b
  | VNum n => negb (n =? 0)%Z
  | VStr s => negb (String.eqb s "")
  | VSession _ | VProxyInfo _ => true
  end.

(** [o.key], [undefined] when the key is absent. *)
Definition prop (o : Obj) (key : string) : Value := default VUndefined (o !! key).

(** ** Numbers in template literals

    A template literal converts a number with [Number::toString] (ECMA-262,
    radix 10): the shortest decimal that is rounded back to the double, the
    closest one when there are several, laid out in positional notation when
    the decimal exponent is between -5 and 21 and in exponent notation
    otherwise. *)

(** A positive rational [sc_num * 2^sc_pow2 * 10^sc_pow10]. *)
Record Scaled := { sc_num : Z; sc_pow2 : Z; sc_pow10 : Z }.

(** The numerators of two such rationals over their common denominator. *)
Definition aligned (a b : Scaled) : Z * Z :=
  let m2 := Z.min (sc_pow2 a) (sc_pow2 b) in
  let m10 := Z.min (sc_pow10 a) (sc_pow10 b) in
  (sc_num a * 2 ^ (sc_pow2 a - m2) * 10 ^ (sc_pow10 a - m10),
   sc_num b * 2 ^ (sc_pow2 b - m2) * 10 ^ (sc_pow10 b - m10))%Z.

Definition scaled_leb (a b : Scaled) : bool :=
  let '(x, y) := aligned a b in (x <=? y)%Z.
Definition scaled_ltb (a b : Scaled) : bool :=
  let '(x, y) := aligned a b in (x <? y)%Z.

(** [floor (a / b)], and [|a - b|] as a numerator over the common denominator. *)
Definition scaled_div (a b : Scaled) : Z :=
  let '(x, y) := aligned a b in (x / y)%Z.
Definition scaled_dist (a b : Scaled) : Z :=
  let '(x, y) := aligned a b in Z.abs (x - y).

(** The decimal [s * 10^p] is rounded to the double [m * 2^e]: it lies between
    the midpoints to the neighbouring doubles, the midpoints included when [m]
    is even. *)
Definition rounds_to (m e s p : Z) : bool :=
  let d := {| sc_num := 2 * s; sc_pow2 := 0; sc_pow10 := p |} in
  let lower := if ((m =? 2 ^ 52) && (-1074 <? e))%Z
               then {| sc_num := 4 * m - 1; sc_pow2 := e - 1; sc_pow10 := 0 |}
               else {| sc_num := 2 * m - 1; sc_pow2 := e; sc_pow10 := 0 |} in
  let upper := {| sc_num := 2 * m + 1; sc_pow2 := e; sc_pow10 := 0 |} in
  if Z.even m then scaled_leb lower d && scaled_leb d upper
  else scaled_ltb lower d && scaled_ltb d upper.

(** The [n] with [10^(n-1) <= m * 2^e < 10^n]. *)
Definition decimal_exponent (m e : Z) : Z :=
  let x := {| sc_num := m; sc_pow2 := e; sc_pow10 := 0 |} in
  let est := ((Z.log2 m + e) * 30103 / 100000)%Z in
  let fits t := scaled_leb {| sc_num := 1; sc_pow2 := 0; sc_pow10 := t |} x in
  (if fits (est + 2) then est + 3 else if fits (est + 1) then est + 2
   else if fits est then est + 1 else if fits (est - 1) then est else est - 1)%Z.

(** The decimal of [k] digits next to [m * 2^e] that is rounded to it, if
    there is one: [(s, n)] stands for [s * 10^(n-k)]. *)
Definition shortest_at (m e k : Z) : option (Z * Z) :=
  let x := {| sc_num := m; sc_pow2 := e; sc_pow10 := 0 |} in
  let n := decimal_exponent m e in
  let p := (n - k)%Z in
  let lo := scaled_div x {| sc_num := 1; sc_pow2 := 0; sc_pow10 := p |} in
  let hi := (lo + 1)%Z in
  let ok s := (10 ^ (k - 1) <=? s)%Z && rounds_to m e s p in
  let dist s := scaled_dist {| sc_num := s; sc_pow2 := 0; sc_pow10 := p |} x in
  let pick s := if (s =? 10 ^ k)%Z then (10 ^ (k - 1), n + 1)%Z else (s, n) in
  match ok lo, ok hi with
  | true, true =>
      if (dist lo <? dist hi)%Z then Some (pick lo)
      else if (dist hi <? dist lo)%Z then Some (pick hi)
      else Some (pick (if Z.even lo then lo else hi))
  | true, false => Some (pick lo)
  | false, true => Some (pick hi)
  | false, false => None
  end.

(** The least [k], its digits [s] and the decimal exponent [n]; seventeen
    digits always suffice for a double. *)
Fixpoint shortest (m e : Z) (fuel : nat) (k : Z) : Z * Z * Z :=
  match fuel with
  | O => (k, m, 0%Z)
  | S fuel =>
      match shortest_at m e k with
      | Some (s, n) => (k, s, n)
      | None => shortest m e fuel (k + 1)
      end
  end.

Fixpoint zeros (n : nat) : string :=
  match n with O => "" | S n => "0" +:+ zeros n end.

Definition exponent_part (n : Z) : string :=
  "e" +:+ (if (0 <=? n - 1)%Z then "+" else "-") +:+ pretty (Z.abs (n - 1)).

(** The [k] digits of [s] laid out for the decimal exponent [n]. *)
Definition layout (k s n : Z) : string :=
  let digits := pretty s in
  if ((-5 <=? n) && (n <=? 21))%Z then
    if (k <=? n)%Z then digits +:+ zeros (Z.to_nat (n - k))
    else if (0 <? n)%Z then
      String.substring 0 (Z.to_nat n) digits +:+ "." +:+
      String.substring (Z.to_nat n) (Z.to_nat (k - n)) digits
    else "0." +:+ zeros (Z.to_nat (- n)) +:+ digits
  else if (k =? 1)%Z then digits +:+ exponent_part n
  else String.substring 0 1 digits +:+ "." +:+
       String.substring 1 (Z.to_nat (k - 1)) digits +:+ exponent_part n.

Definition Number_toString (x : Number) : string :=
  match Prim2SF x with
  | S754_nan => "NaN"
  | S754_zero _ => "0"
  | S754_infinity sign => if sign then "-Infinity" else "Infinity"
  | S754_finite sign m e =>
      let '(k, s, n) := shortest (Z.pos m) e 17 1 in
      (if sign then "-" else "") +:+ layout k s n
  end.

(** [text.includes(part)] *)
Fixpoint includes (text part : string) : bool :=
  String.prefix part text ||
  match text with
  | EmptyString => false
  | String _ rest => includes rest part
  end.

(** What the navigation function handed back, as [_responseHandler] tells the
    cases apart: a falsy value, an object whose [status] is a function, or any
    other truthy value. *)
Inductive Response :=
  | NoResponse
  | StatusResponse (r : nat)
  | MalformedResponse.

Record Request := { url : string; loadedUrl : option string }.

(** The crawling context of the attempt; [request] is a reference into the
    heap of request objects.  ([crawlingContext.crawler] is the crawler itself
    and is left out.) *)
Record CrawlingContext := {
  id : string;
  request : nat;
  page : option Page;
  browserController : option BrowserController;
  session : Value;
  proxyInfo : Value;
  response : Response;
}.

Definition with_page (p : option Page) (cc : CrawlingContext) : CrawlingContext :=
  {| id := id cc; request := request cc; page := p;
     browserController := browserController cc; session := session cc;
     proxyInfo := proxyInfo cc; response := response cc |}.

Definition with_browserController (bc : option BrowserController)
    (cc : CrawlingContext) : CrawlingContext :=
  {| id := id cc; request := request cc; page := page cc;
     browserController := bc; session := session cc;
     proxyInfo := proxyInfo cc; response := response cc |}.

Definition with_session (s : Value) (cc : CrawlingContext) : CrawlingContext :=
  {| id := id cc; request := request cc; page := page cc;
     browserController := browserController cc; session := s;
     proxyInfo := proxyInfo cc; response := response cc |}.

Definition with_proxyInfo (p : Value) (cc : CrawlingContext) : CrawlingContext :=
  {| id := id cc; request := request cc; page := page cc;
     browserController := browserController cc; session := session cc;
     proxyInfo := p; response := response cc |}.

Definition with_response (r : Response) (cc : CrawlingContext) : CrawlingContext :=
  {| id := id cc; request := request cc; page := page cc;
     browserController := browserController cc; session := session cc;
     proxyInfo := proxyInfo cc; response := r |}.

(** ** The call log *)

Inductive Call :=
  | CNewPage (id : string)
  | CGetBrowserControllerByPage (p : Page)
  | CGetPuppeteerCookies (s : Session) (url : string)
  | CSetCookies (bc : BrowserController) (p : Page) (cookies : Cookies)
  | CHook (name : string) (gotoOptions : nat)
  | CGotoFunction (gotoOptions : nat)
  | CStatus (r : nat)
  | CSessionRetire (s : Session)
  | CPageUrl (p : Page)
  | CGetCookies (bc : BrowserController) (p : Page)
  | CSetPuppeteerCookies (s : Session) (cookies : Cookies) (url : option string)
  | CHandlePageFunction
  | CMarkGood (s : Session)
  | CPageClose (p : Page)
  | CLogDebug (message : string)
  | CGetSession
  | CNewProxyInfo (sessionId : option string)
  | CExtend (launchContext : nat) (fields : Obj)
  | CRetireBrowserController (bc : BrowserController)
  | CSuper (handleRequestTimeoutSecs : Number)
  | CNewSessionPool
  | CSetMaxListeners (n : Z)
  | CNewBrowserPool.

Definition is_pageClose (c : Call) : bool :=
  match c with CPageClose _ => true | _ => false end.
Definition is_handlePage (c : Call) : bool :=
  match c with CHandlePageFunction => true | _ => false end.
Definition is_markGood (c : Call) : bool :=
  match c with CMarkGood _ => true | _ => false end.
Definition is_sessionRetire (c : Call) : bool :=
  match c with CSessionRetire _ => true | _ => false end.
Definition is_status (c : Call) : bool :=
  match c with CStatus _ => true | _ => false end.
Definition is_hook (c : Call) : bool :=
  match c with CHook _ _ => true | _ => false end.
Definition is_goto (c : Call) : bool :=
  match c with CGotoFunction _ => true | _ => false end.
Definition is_retireController (bc : BrowserController) (c : Call) : bool :=
  match c with CRetireBrowserController bc' => bool_decide (bc' = bc) | _ => false end.

(** How many logged calls satisfy [p]. *)
Definition count (p : Call -> bool) (log : list Call) : nat :=
  length (List.filter p log).

Section Model.

(** The collaborators' own state (browsers, pools, cookie jars): opaque. *)
Context {Ext : Type}.

(** ** The store

    Everything the crawler, its collaborators and the user's functions can
    reach: the attempt's crawling context, the heap of request objects, the
    heap of option bags (launch contexts and navigation options, allocated at
    [nextObject]), the session pool's SESSION_RETIRED listeners (closure
    identity and captured controller, in registration order), the controllers'
    browserClosed listeners (controller and the listener they remove), and the
    collaborators' state. *)
Record Env := {
  ext : Ext;
  ctx : CrawlingContext;
  requests : nat -> Request;
  objects : nat -> Obj;
  nextObject : nat;
  retiredListeners : list (nat * BrowserController);
  closedListeners : list (BrowserController * nat);
  nextListener : nat;
}.

Definition set_ctx (f : CrawlingContext -> CrawlingContext) (e : Env) : Env :=
  {| ext := ext e; ctx := f (ctx e); requests := requests e; objects := objects e;
     nextObject := nextObject e; retiredListeners := retiredListeners e;
     closedListeners := closedListeners e; nextListener := nextListener e |}.

Definition set_requests (f : (nat -> Request) -> nat -> Request) (e : Env) : Env :=
  {| ext := ext e; ctx := ctx e; requests := f (requests e); objects := objects e;
     nextObject := nextObject e; retiredListeners := retiredListeners e;
     closedListeners := closedListeners e; nextListener := nextListener e |}.

Definition set_objects (f : (nat -> Obj) -> nat -> Obj) (e : Env) : Env :=
  {| ext := ext e; ctx := ctx e; requests := requests e; objects := f (objects e);
     nextObject := nextObject e; retiredListeners := retiredListeners e;
     closedListeners := closedListeners e; nextListener := nextListener e |}.

Definition set_nextObject (n : nat) (e : Env) : Env :=
  {| ext := ext e; ctx := ctx e; requests := requests e; objects := objects e;
     nextObject := n; retiredListeners := retiredListeners e;
     closedListeners := closedListeners e; nextListener := nextListener e |}.

Definition set_listeners (rl : list (nat * BrowserController))
    (cl : list (BrowserController * nat)) (n : nat) (e : Env) : Env :=
  {| ext := ext e; ctx := ctx e; requests := requests e; objects := objects e;
     nextObject := nextObject e; retiredListeners := rl;
     closedListeners := cl; nextListener := n |}.

(** ** The monad: store, exception, call log *)

Definition M (A : Type) : Type := Env -> Outcome A * Env * list Call.

Definition ret {A} (a : A) : M A := fun e => (Ok a, e, []).
Definition throw {A} (x : Error) : M A := fun e => (Throw x, e, []).

Definition bind {A B} (m : M A) (k : A -> M B) : M B := fun e =>
  match m e with
  | (Ok a, e1, l1) => let '(o, e2, l2) := k a e1 in (o, e2, l1 ++ l2)
  | (Throw x, e1, l1) => (Throw x, e1, l1)
  end.

(** [try { body } finally { fin }]: [fin] always runs; when it throws, its error
    replaces the outcome of [body]. *)
Definition try_finally {A} (body : M A) (fin : M unit) : M A := fun e =>
  let '(o, e1, l1) := body e in
  match fin e1 with
  | (Ok _, e2, l2) => (o, e2, l1 ++ l2)
  | (Throw x, e2, l2) => (Throw x, e2, l1 ++ l2)
  end.

(** [try { body } catch (error) { handler(error) }]. *)
Definition try_catch {A} (body : M A) (handler : Error -> M A) : M A := fun e =>
  match body e with
  | (Ok a, e1, l1) => (Ok a, e1, l1)
  | (Throw x, e1, l1) => let '(o, e2, l2) := handler x e1 in (o, e2, l1 ++ l2)
  end.

(** A logged call of a collaborator or of a user function. *)
Definition call {A} (c : Call) (f : Env -> Outcome A * Env) : M A := fun e =>
  let '(o, e1) := f e in (o, e1, [c]).

Definition get : M Env := fun e => (Ok e, e, []).
Definition modify (f : Env -> Env) : M unit := fun e => (Ok tt, f e, []).

(** A value that has to be there: [TypeError] otherwise. *)
Definition defined {A} (o : option A) : M A :=
  match o with Some a => ret a | None => throw TypeError end.

End Model.

Arguments Env : clear implicits.
Arguments M : clear implicits.

Declare Scope crawler_scope.
Delimit Scope crawler_scope with crawler.
Notation "x <- m ;; k" := (bind m (fun x => k))
  (at level 100, m at next level, right associativity) : crawler_scope.
Notation "m ;; k" := (bind m (fun _ => k))
  (at level 100, right associativity) : crawler_scope.
Open Scope crawler_scope.

Section Crawler.

Context {Ext : Type}.

(** A navigation hook: an async function of the crawling context (in the
    store) and the navigation options (a reference). *)
Record Hook := {
  hook_name : string;
  hook_run : nat -> Env Ext -> Outcome unit * Env Ext;
}.

(** The constructor's options; [None] is a property left [undefined].  The
    options that are only handed on to the session pool, the browser pool and
    the basic crawler are left to those collaborators. *)
Record BrowserCrawlerOptions := {
  opt_handlePageFunction : Env Ext -> Promise unit * Env Ext;
  opt_handlePageTimeoutSecs : option Number;
  opt_gotoFunction : option (nat -> Env Ext -> Outcome Response * Env Ext);
  opt_persistCookiesPerSession : option bool;
  opt_useSessionPool : option bool;
  opt_proxyConfiguration : option nat;
  opt_preNavigationHooks : option (list Hook);
  opt_postNavigationHooks : option (list Hook);
}.

(** ** Collaborators

    The browser pool, pages, responses, sessions, the session pool and the
    proxy configuration are not part of this file's source: their methods are
    parameters.  Each takes the store and answers with a value or an error. *)
Record Collaborators := {
  (** [browserPool.newPage({ id })] *)
  newPage : string -> Env Ext -> Outcome Page * Env Ext;
  (** [browserPool.getBrowserControllerByPage(page)], [None] for [undefined] *)
  getBrowserControllerByPage : Page -> Env Ext -> option BrowserController;
  (** [browserPool.retireBrowserController(browserController)] *)
  retireBrowserController : BrowserController -> Env Ext -> Outcome unit * Env Ext;
  (** [browserController.setCookies(page, cookies)] *)
  setCookies : BrowserController -> Page -> Cookies -> Env Ext -> Outcome unit * Env Ext;
  (** [browserController.getCookies(page)] *)
  getCookies : BrowserController -> Page -> Env Ext -> Outcome Cookies * Env Ext;
  (** [page.url()] and [page.close()] *)
  page_url : Page -> Env Ext -> Outcome string * Env Ext;
  page_close : Page -> Env Ext -> Outcome unit * Env Ext;
  (** [response.status()] *)
  status : nat -> Env Ext -> Outcome Z * Env Ext;
  (** [session.getPuppeteerCookies(url)], [session.setPuppeteerCookies(cookies, url)],
      [session.markGood()] *)
  getPuppeteerCookies : Session -> string -> Env Ext -> Outcome Cookies * Env Ext;
  setPuppeteerCookies : Session -> Cookies -> option string -> Env Ext -> Outcome unit * Env Ext;
  markGood : Session -> Env Ext -> Outcome unit * Env Ext;
  (** what retiring a session does to the store, and the statuses the session
      pool treats as blocked (both used by [throwOnBlockedRequest]) *)
  retire : Session -> Env Ext -> Env Ext;
  blockedStatusCodes : list Z;
  (** [sessionPool.getSession()] *)
  getSession : Env Ext -> Outcome Session * Env Ext;
  (** [proxyConfiguration.newProxyInfo(sessionId)] *)
  newProxyInfo : option string -> Env Ext -> Outcome ProxyInfo * Env Ext;
  (** [launchContext.extend(fields)]: the new content of the launch context *)
  extend : Obj -> Obj -> Outcome Obj;
  (** [ow(options, ..., ow.object.exactShape(optionsShape))]: the error it
      throws, if any; and the constant of [../constants] *)
  ow : BrowserCrawlerOptions -> option Error;
  BASIC_CRAWLER_TIMEOUT_MULTIPLIER : Number;
  (** [super(options)], [new SessionPool(options)], [new BrowserPool(options)] *)
  super_BasicCrawler : Number -> Env Ext -> Outcome unit * Env Ext;
  new_SessionPool : Env Ext -> Outcome nat * Env Ext;
  new_BrowserPool : Env Ext -> Outcome nat * Env Ext;
}.

(** ** The crawler object ([this]) *)
Record Crawler := {
  handlePageFunction : Env Ext -> Promise unit * Env Ext;
  handlePageTimeoutSecs : Number;
  handlePageTimeoutMillis : Number;
  gotoFunction : option (nat -> Env Ext -> Outcome Response * Env Ext);
  gotoOptions : Obj;
  persistCookiesPerSession : bool;
  proxyConfiguration : option nat;
  preNavigationHooks : list Hook;
  postNavigationHooks : list Hook;
  sessionPool : option nat;
  browserPool : nat;
}.

Variable K : Collaborators.

Definition log_debug (message : string) : M Ext unit :=
  call (CLogDebug message) (fun e => (Ok tt, e)).

(** A method call on [session]: [TypeError] unless it is a session object. *)
Definition as_session (v : Value) : M Ext Session :=
  match v with VSession s => ret s | _ => throw TypeError end.

(** [_.clone(o)]: a fresh object with the same fields. *)
Definition clone (o : Obj) : M Ext nat := fun e =>
  let l := nextObject e in
  (Ok l, set_nextObject (S l) (set_objects (fun h => <[l := o]> h) e), []).

(** The blocked-response error for a status. *)
Definition blockedResponseError (statusCode : Z) : Error :=
  JsError ("Request blocked - received " +:+ pretty statusCode +:+ " status code.").

(** Modelled from the spec: [throwOnBlockedRequest] of [./crawler_utils], a
    module of the repository that is not among the sources.  The status is
    checked against the configured blocked set; for a member the session is
    retired and the attempt fails with the blocked-response error. *)
Definition throwOnBlockedRequest (session : Value) (statusCode : Z) : M Ext unit :=
  if bool_decide (statusCode ∈ blockedStatusCodes K) then
    s <- as_session session;;
    call (CSessionRetire s) (fun e => (Ok tt, retire K s e));;
    throw (blockedResponseError statusCode)
  else ret tt.

(** Modelled from the spec: [addTimeoutToPromise] of [../utils], a module of
    the repository that is not among the sources.  A promise that does not settle within [timeoutMillis] fails
    with an error carrying [errorMessage]; one that does keeps its outcome. *)
Definition addTimeoutToPromise {A} (promise : Promise A) (timeoutMillis : Number)
    (errorMessage : string) : Outcome A :=
  match promise with
  | Settles elapsed o =>
      if (elapsed <=? timeoutMillis)%float then o else Throw (JsError errorMessage)
  | NeverSettles => Throw (JsError errorMessage)
  end.

(** The template literal of line 372: the quotient is a double, and the
    literal converts it with [Number::toString]. *)
Definition timeoutMessage (handlePageTimeoutMillis : Number) : string :=
  "handlePageFunction timed out after "
    +:+ Number_toString (handlePageTimeoutMillis / 1000)%float
    +:+ " seconds.".

(** ** [_executeHooks] *)
Fixpoint _executeHooks (hooks : list Hook) (gotoOptions : nat) : M Ext unit :=
  match hooks with
  | [] => ret tt
  | hook :: rest =>
      call (CHook (hook_name hook) gotoOptions) (hook_run hook gotoOptions);;
      _executeHooks rest gotoOptions
  end.

(** ** [_navigationHandler] *)
Definition _navigationHandler (this : Crawler) (gotoOptions : nat) : M Ext Response :=
  match gotoFunction this with
  | None => throw (JsError "BrowserCrawler: You must specify a gotoFunction!")
  | Some goto => call (CGotoFunction gotoOptions) (goto gotoOptions)
  end.

(** ** [_handleNavigation] *)
Definition _handleNavigation (this : Crawler) : M Ext unit :=
  gotoOptions <- clone (gotoOptions this);;
  _executeHooks (preNavigationHooks this) gotoOptions;;
  r <- _navigationHandler this gotoOptions;;
  modify (set_ctx (with_response r));;
  _executeHooks (postNavigationHooks this) gotoOptions.

(** ** [_responseHandler] *)
Definition set_loadedUrl (request : nat) (u : string) : Env Ext -> Env Ext :=
  set_requests (fun h => <[request := {| url := url (h request); loadedUrl := Some u |}]> h).

Definition _responseHandler (this : Crawler) : M Ext unit :=
  e <- get;;
  let response := response (ctx e) in
  let session := session (ctx e) in
  let request := request (ctx e) in
  let page := page (ctx e) in
  (match sessionPool this, response with
   | Some _, StatusResponse r =>
       statusCode <- call (CStatus r) (status K r);;
       throwOnBlockedRequest session statusCode
   | Some _, MalformedResponse => log_debug "Got a malformed Browser response."
   | _, _ => ret tt
   end);;
  p <- defined page;;
  u <- call (CPageUrl p) (page_url K p);;
  modify (set_loadedUrl request u).

(** ** [_enhanceCrawlingContextWithPageInfo] *)
Definition _enhanceCrawlingContextWithPageInfo (page : Page) : M Ext unit :=
  modify (set_ctx (with_page (Some page)));;
  browserControllerInstance <-
    call (CGetBrowserControllerByPage page)
         (fun e => (Ok (getBrowserControllerByPage K page e), e));;
  modify (set_ctx (with_browserController browserControllerInstance));;
  bc <- defined browserControllerInstance;;
  e <- get;;
  modify (set_ctx (with_session (prop (objects e (launchContext bc)) "session")));;
  modify (set_ctx (with_proxyInfo (prop (objects e (launchContext bc)) "proxyInfo"))).

(** ** [_handleRequestFunction] *)
Definition restoreCookies (page : Page) (request : nat) : M Ext unit :=
  e <- get;;
  s <- as_session (session (ctx e));;
  cookies <- call (CGetPuppeteerCookies s (url (requests e request)))
                  (getPuppeteerCookies K s (url (requests e request)));;
  e <- get;;
  bc <- defined (browserController (ctx e));;
  call (CSetCookies bc page cookies) (setCookies K bc page cookies).

Definition saveCookies (page : Page) (request : nat) (session : Value) : M Ext unit :=
  e <- get;;
  bc <- defined (browserController (ctx e));;
  cookies <- call (CGetCookies bc page) (getCookies K bc page);;
  s <- as_session session;;
  e <- get;;
  call (CSetPuppeteerCookies s cookies (loadedUrl (requests e request)))
       (setPuppeteerCookies K s cookies (loadedUrl (requests e request))).

Definition runHandlePageFunction (this : Crawler) : M Ext unit := fun e =>
  let '(promise, e1) := handlePageFunction this e in
  (addTimeoutToPromise promise (handlePageTimeoutMillis this)
     (timeoutMessage (handlePageTimeoutMillis this)),
   e1, [CHandlePageFunction]).

Definition closePage (page : Page) : M Ext unit :=
  try_catch (call (CPageClose page) (page_close K page))
            (fun error => log_debug "Error while closing page").

(** Lines 346 to 355: the page is acquired, the context is enhanced and, with
    cookie persistence, the session's cookies are put on the page.  The values
    of [page], [request] and [session] are those the later lines refer to. *)
Definition openPage (this : Crawler) : M Ext (Page * nat * Value) :=
  e <- get;;
  page <- call (CNewPage (id (ctx e))) (newPage K (id (ctx e)));;
  _enhanceCrawlingContextWithPageInfo page;;
  e <- get;;
  let request := request (ctx e) in
  let session := session (ctx e) in
  (if persistCookiesPerSession this then restoreCookies page request else ret tt);;
  ret (page, request, session).

(** Lines 358 to 367: navigation, response handling, and with cookie
    persistence the page's cookies are stored in the session. *)
Definition beforeHandler (this : Crawler) (page : Page) (request : nat) (session : Value)
    : M Ext unit :=
  _handleNavigation this;;
  _responseHandler this;;
  (if persistCookiesPerSession this then saveCookies page request session else ret tt).

(** Line 375: [if (session) session.markGood()]. *)
Definition markSessionGood (session : Value) : M Ext unit :=
  if truthy session
  then s <- as_session session;; call (CMarkGood s) (markGood K s)
  else ret tt.

(** Lines 358 to 375: the body of the [try]. *)
Definition tryBlock (this : Crawler) (page : Page) (request : nat) (session : Value)
    : M Ext unit :=
  beforeHandler this page request session;;
  runHandlePageFunction this;;
  markSessionGood session.

Definition _handleRequestFunction (this : Crawler) : M Ext unit :=
  opened <- openPage this;;
  let '(page, request, session) := opened in
  try_finally (tryBlock this page request session) (closePage page).

(** ** [_extendLaunchContext] *)

(** [launchContext.extend(fields)] changes the launch context in place. *)
Definition launchContext_extend (lc : nat) (fields : Obj) : M Ext unit :=
  call (CExtend lc fields) (fun e =>
    match extend K (objects e lc) fields with
    | Ok o => (Ok tt, set_objects (fun h => <[lc := o]> h) e)
    | Throw x => (Throw x, e)
    end).

(** [launchContextExtends.session && launchContextExtends.session.id] *)
Definition session_and_id (launchContextExtends : Obj) : option string :=
  match prop launchContextExtends "session" with
  | VSession s => Some (session_id s)
  | _ => None
  end.

Definition _extendLaunchContext (this : Crawler) (pageId : string)
    (launchContext : nat) : M Ext unit :=
  let launchContextExtends : Obj := ∅ in
  launchContextExtends <-
    match sessionPool this with
    | Some _ =>
        s <- call CGetSession (getSession K);;
        ret (<["session" := VSession s]> launchContextExtends)
    | None => ret launchContextExtends
    end;;
  launchContextExtends <-
    match proxyConfiguration this with
    | Some _ =>
        proxyInfo <- call (CNewProxyInfo (session_and_id launchContextExtends))
                          (newProxyInfo K (session_and_id launchContextExtends));;
        modify (set_objects (fun h =>
          <[launchContext := <["proxyUrl" := VStr (proxy_url proxyInfo)]> (h launchContext)]> h));;
        ret (<["proxyInfo" := VProxyInfo proxyInfo]> launchContextExtends)
    | None => ret launchContextExtends
    end;;
  launchContext_extend launchContext launchContextExtends.

(** ** [_maybeAddSessionRetiredListener] *)

(** [launchContext.session.id]: a [TypeError] when there is no session. *)
Definition session_id_of (v : Value) : M Ext (option string) :=
  match v with
  | VUndefined => throw TypeError
  | VSession s => ret (Some (session_id s))
  | _ => ret None
  end.

(** The listener closure, for the controller it captured. *)
Definition listener (this : Crawler) (browserController : BrowserController)
    (session : Session) : M Ext unit :=
  e <- get;;
  let launchContext := launchContext browserController in
  bound <- session_id_of (prop (objects e launchContext) "session");;
  if bool_decide (Some (session_id session) = bound) then
    launchContext_extend launchContext {["sessionRetired" := VBool true]};;
    call (CRetireBrowserController browserController)
         (retireBrowserController K browserController)
  else ret tt.

(** [emitter.on] appends; [emitter.removeListener] takes out the most recently
    added instance of the listener. *)
Fixpoint remove_first (lid : nat) (ls : list (nat * BrowserController)) :=
  match ls with
  | [] => []
  | l :: rest => if bool_decide (l.1 = lid) then rest else l :: remove_first lid rest
  end.

Definition removeListener (lid : nat) (ls : list (nat * BrowserController)) :=
  rev (remove_first lid (rev ls)).

Definition _maybeAddSessionRetiredListener (this : Crawler) (pageId : string)
    (browserController : BrowserController) : M Ext unit :=
  match sessionPool this with
  | Some _ =>
      modify (fun e =>
        let lid := nextListener e in
        set_listeners (retiredListeners e ++ [(lid, browserController)])
                      (closedListeners e ++ [(browserController, lid)])
                      (S lid) e)
  | None => ret tt
  end.

(** [sessionPool.emit(EVENTS.SESSION_RETIRED, session)]: the listeners
    registered when the event is emitted run in registration order; an error
    of one of them ends the emission. *)
Fixpoint run_listeners (this : Crawler) (ls : list (nat * BrowserController))
    (session : Session) : M Ext unit :=
  match ls with
  | [] => ret tt
  | l :: rest => listener this l.2 session;; run_listeners this rest session
  end.

Definition emit_sessionRetired (this : Crawler) (session : Session) : M Ext unit :=
  e <- get;;
  run_listeners this (retiredListeners e) session.

(** [browserController.emit('browserClosed')]: each listener of that
    controller removes the session-retired listener it was created for. *)
Fixpoint run_closed (bc : BrowserController) (ls : list (BrowserController * nat))
    : M Ext unit :=
  match ls with
  | [] => ret tt
  | l :: rest =>
      (if bool_decide (l.1 = bc)
       then modify (fun e =>
              set_listeners (removeListener l.2 (retiredListeners e))
                            (closedListeners e) (nextListener e) e)
       else ret tt);;
      run_closed bc rest
  end.

Definition emit_browserClosed (bc : BrowserController) : M Ext unit :=
  e <- get;;
  run_closed bc (closedListeners e).

(** ** [constructor] *)

Definition dquote : string := String (Ascii.ascii_of_nat 34) EmptyString.

Definition configurationMessage : string :=
  "You cannot use " +:+ dquote +:+ "persistCookiesPerSession" +:+ dquote
    +:+ " without " +:+ dquote +:+ "useSessionPool" +:+ dquote +:+ " set to true.".

Definition constructor (options : BrowserCrawlerOptions) : M Ext Crawler :=
  match ow K options with
  | Some argumentError => throw argumentError
  | None =>
      let handlePageTimeoutSecs := default 60%float (opt_handlePageTimeoutSecs options) in
      let persistCookiesPerSession := default true (opt_persistCookiesPerSession options) in
      let useSessionPool := default true (opt_useSessionPool options) in
      let preNavigationHooks := default [] (opt_preNavigationHooks options) in
      let postNavigationHooks := default [] (opt_postNavigationHooks options) in
      if negb useSessionPool && persistCookiesPerSession
      then throw (JsError configurationMessage)
      else
        call (CSuper (handlePageTimeoutSecs * BASIC_CRAWLER_TIMEOUT_MULTIPLIER K)%float)
             (super_BasicCrawler K
                (handlePageTimeoutSecs * BASIC_CRAWLER_TIMEOUT_MULTIPLIER K)%float);;
        pool <-
          (if useSessionPool
           then
             sp <- call CNewSessionPool (new_SessionPool K);;
             call (CSetMaxListeners 20) (fun e => (Ok tt, e));;
             ret (Some sp)
           else ret None);;
        bp <- call CNewBrowserPool (new_BrowserPool K);;
        ret {| handlePageFunction := opt_handlePageFunction options;
               handlePageTimeoutSecs := handlePageTimeoutSecs;
               handlePageTimeoutMillis := (handlePageTimeoutSecs * 1000)%float;
               gotoFunction := opt_gotoFunction options;
               gotoOptions := ∅;
               persistCookiesPerSession := persistCookiesPerSession;
               proxyConfiguration := opt_proxyConfiguration options;
               preNavigationHooks := preNavigationHooks;
               postNavigationHooks := postNavigationHooks;
               sessionPool := pool;
               browserPool := bp |}
  end.

End Crawler.

Arguments Collaborators : clear implicits.
Arguments Hook : clear implicits.
Arguments Crawler : clear implicits.
Arguments BrowserCrawlerOptions : clear implicits.

(** ** What a run leaves: its outcome, the store, the call log *)
Definition outcome {Ext A} (r : Outcome A * Env Ext * list Call) : Outcome A := r.1.1.
Definition store {Ext A} (r : Outcome A * Env Ext * list Call) : Env Ext := r.1.2.
Definition log {Ext A} (r : Outcome A * Env Ext * list Call) : list Call := r.2.

(** [m] makes calls that [q] recognises only; [m] never makes a call that [p]
    recognises. *)
Definition calls_within {Ext A} (q : Call -> bool) (m : M Ext A) : Prop :=
  forall e, forallb q (log (m e)) = true.

Definition never_calls {Ext A} (p : Call -> bool) (m : M Ext A) : Prop :=
  forall e, count p (log (m e)) = 0.

(** The promise settles before the timeout fires. *)
Definition settles_within {A} (promise : Promise A) (timeoutMillis : Number) : bool :=
  match promise with
  | Settles elapsed _ => (elapsed <=? timeoutMillis)%float
  | NeverSettles => false
  end.

(** The calls of each stage. *)
Definition open_call (c : Call) : bool :=
  match c with
  | CNewPage _ | CGetBrowserControllerByPage _ | CGetPuppeteerCookies _ _
  | CSetCookies _ _ _ => true
  | _ => false
  end.

Definition navigation_call (c : Call) : bool :=
  match c with CHook _ _ | CGotoFunction _ => true | _ => false end.

Definition response_call (c : Call) : bool :=
  match c with
  | CStatus _ | CSessionRetire _ | CLogDebug _ | CPageUrl _ => true
  | _ => false
  end.

Definition save_call (c : Call) : bool :=
  match c with CGetCookies _ _ | CSetPuppeteerCookies _ _ _ => true | _ => false end.

Definition close_call (c : Call) : bool :=
  match c with CPageClose _ | CLogDebug _ => true | _ => false end.

(** Neither [response.status()] nor the retirement of a session. *)
Definition no_status_check (c : Call) : bool :=
  negb (is_status c || is_sessionRetire c).

Definition before_handler_call (c : Call) : bool :=
  navigation_call c || response_call c || save_call c.

(** [launchContext.extend] is additive: fields the launch context does not
    have yet are added and nothing else changes. *)
Definition additive_extend {Ext} (K : Collaborators Ext) : Prop :=
  forall (o fields : Obj), fields ##ₘ o -> extend K o fields = Ok (fields ∪ o).

(** The controller a registered listener captured is bound to a session with
    another id than [session]. *)
Definition bound_elsewhere {Ext} (e : Env Ext) (session : Session)
    (l : nat * BrowserController) : Prop :=
  exists s', prop (objects e (launchContext l.2)) "session" = VSession s' /\
             session_id s' <> session_id session.

(** The store once [_maybeAddSessionRetiredListener] has run for a controller. *)
Definition installed {Ext} (this : Crawler Ext) (pageId : string)
    (bc : BrowserController) (e : Env Ext) : Env Ext :=
  store (_maybeAddSessionRetiredListener this pageId bc e).

(** The calls that act on the browser of [bc]: an [extend] of its launch
    context, and its retirement. *)
Definition acts_on (bc : BrowserController) (c : Call) : bool :=
  match c with
  | CExtend lc _ => bool_decide (lc = launchContext bc)
  | CRetireBrowserController bc' => bool_decide (bc' = bc)
  | _ => false
  end.

(** A registered listener that belongs to another browser than [bc]'s: its
    controller has a launch context of its own. *)
Definition other_browser (bc : BrowserController) (l : nat * BrowserController) : Prop :=
  launchContext l.2 <> launchContext bc.

(** The launch context of [bc] with [sessionRetired: true] added. *)
Definition flagged {Ext} (bc : BrowserController) (e : Env Ext) : Env Ext :=
  set_objects (fun h =>
    <[launchContext bc := {["sessionRetired" := VBool true]}
                            ∪ objects e (launchContext bc)]> h) e.

(** ** Concrete collaborators, crawlers and stores

    One browser with controller [bc1] and launch context at address 0, pages
    answering with the url they were redirected to, a session pool handing out
    session [s1] and treating 401, 403 and 429 as blocked. *)
Module Examples.

Definition s1 : Session := {| session_ref := 1; session_id := "s1" |}.
Definition s2 : Session := {| session_ref := 2; session_id := "s2" |}.
Definition bc1 : BrowserController := {| controller_ref := 1; launchContext := 0 |}.

Definition env0 (lc : Obj) : Env unit :=
  {| ext := tt;
     ctx := {| id := "attempt-1"; request := 0; page := None; browserController := None;
               session := VUndefined; proxyInfo := VUndefined; response := NoResponse |};
     requests := fun _ => {| url := "http://a.test/"; loadedUrl := None |};
     objects := fun l => if (l =? 0)%nat then lc else ∅;
     nextObject := 1; retiredListeners := []; closedListeners := []; nextListener := 0 |}.

(** [setCookiesFails]: the browser rejects [setCookies]; [st]: the status every
    response reports. *)
Definition K0 (setCookiesFails : bool) (st : Z) : Collaborators unit :=
  {| newPage := fun _ e => (Ok 7, e);
     getBrowserControllerByPage := fun _ _ => Some bc1;
     retireBrowserController := fun _ e => (Ok tt, e);
     setCookies := fun _ _ _ e =>
       if setCookiesFails then (Throw (JsError "Target closed"), e) else (Ok tt, e);
     getCookies := fun _ _ e => (Ok [("k", "v")], e);
     page_url := fun _ e => (Ok "http://a.test/redirected", e);
     page_close := fun _ e => (Ok tt, e);
     status := fun _ e => (Ok st, e);
     getPuppeteerCookies := fun _ _ e => (Ok [], e);
     setPuppeteerCookies := fun _ _ _ e => (Ok tt, e);
     markGood := fun _ e => (Ok tt, e);
     retire := fun _ e => e;
     blockedStatusCodes := [401; 403; 429]%Z;
     getSession := fun e => (Ok s1, e);
     newProxyInfo := fun sid e =>
       (Ok {| proxy_url := "http://proxy.test:8000"; proxy_sessionId := sid |}, e);
     extend := fun o fields => Ok (fields ∪ o);
     ow := fun _ => None;
     BASIC_CRAWLER_TIMEOUT_MULTIPLIER := 10;
     super_BasicCrawler := fun _ e => (Ok tt, e);
     new_SessionPool := fun e => (Ok 1, e);
     new_BrowserPool := fun e => (Ok 2, e) |}.

(** A crawler with a one second timeout whose handler settles as [h] says. *)
Definition crawler0 (persist : bool) (pool : option nat) (pre : list (Hook unit))
    (h : Promise unit) : Crawler unit :=
  {| handlePageFunction := fun e => (h, e);
     handlePageTimeoutSecs := 1; handlePageTimeoutMillis := 1000;
     gotoFunction := Some (fun _ e => (Ok (StatusResponse 0), e));
     gotoOptions := ∅; persistCookiesPerSession := persist; proxyConfiguration := None;
     preNavigationHooks := pre; postNavigationHooks := [];
     sessionPool := pool; browserPool := 2 |}.

Definition withSession : Obj := {["session" := VSession s1]}.

(** Hook A sets a header in the navigation options; hook B and the navigation
    function fail unless they find it there. *)
Definition hookA : Hook unit :=
  {| hook_name := "A";
     hook_run := fun opts e =>
       (Ok tt, set_objects (fun h => <[opts := <["header" := VNum 1]> (h opts)]> h) e) |}.

Definition hookB : Hook unit :=
  {| hook_name := "B";
     hook_run := fun opts e =>
       if bool_decide (prop (objects e opts) "header" = VNum 1)
       then (Ok tt, e) else (Throw (JsError "header missing"), e) |}.

Definition gotoAB (opts : nat) (e : Env unit) : Outcome Response * Env unit :=
  if bool_decide (prop (objects e opts) "header" = VNum 1)
  then (Ok (StatusResponse 0), e) else (Throw (JsError "header missing"), e).

Definition crawlerAB : Crawler unit :=
  {| handlePageFunction := fun e => (Settles 10 (Ok tt), e);
     handlePageTimeoutSecs := 1; handlePageTimeoutMillis := 1000;
     gotoFunction := Some gotoAB;
     gotoOptions := ∅; persistCookiesPerSession := true; proxyConfiguration := None;
     preNavigationHooks := [hookA; hookB]; postNavigationHooks := [];
     sessionPool := Some 1; browserPool := 2 |}.

(** A crawler with a proxy configuration. *)
Definition crawlerProxy (pool : option nat) : Crawler unit :=
  {| handlePageFunction := fun e => (Settles 10 (Ok tt), e);
     handlePageTimeoutSecs := 1; handlePageTimeoutMillis := 1000;
     gotoFunction := Some (fun _ e => (Ok (StatusResponse 0), e));
     gotoOptions := ∅; persistCookiesPerSession := false; proxyConfiguration := Some 3;
     preNavigationHooks := []; postNavigationHooks := [];
     sessionPool := pool; browserPool := 2 |}.

(** Options with a one second timeout and the defaults otherwise; they make
    [crawler0 true (Some 1) [] h]. *)
Definition options0 (h : Promise unit) : BrowserCrawlerOptions unit :=
  {| opt_handlePageFunction := fun e => (h, e);
     opt_handlePageTimeoutSecs := Some 1%float;
     opt_gotoFunction := Some (fun _ e => (Ok (StatusResponse 0), e));
     opt_persistCookiesPerSession := None;
     opt_useSessionPool := None;
     opt_proxyConfiguration := None;
     opt_preNavigationHooks := None;
     opt_postNavigationHooks := None |}.

(** Cookie persistence asked for, the session pool switched off. *)
Definition conflictingOptions : BrowserCrawlerOptions unit :=
  {| opt_handlePageFunction := fun e => (Settles 10 (Ok tt), e);
     opt_handlePageTimeoutSecs := None;
     opt_gotoFunction := None;
     opt_persistCookiesPerSession := Some true;
     opt_useSessionPool := Some false;
     opt_proxyConfiguration := None;
     opt_preNavigationHooks := None;
     opt_postNavigationHooks := None |}.

(** A timeout of 50.6534 seconds and a handler that takes a minute, and the
    crawler the constructor makes of these options. *)
Definition fractionalOptions : BrowserCrawlerOptions unit :=
  {| opt_handlePageFunction := fun e => (Settles 60000 (Ok tt), e);
     opt_handlePageTimeoutSecs := Some 50.6534%float;
     opt_gotoFunction := Some (fun _ e => (Ok (StatusResponse 0), e));
     opt_persistCookiesPerSession := None;
     opt_useSessionPool := None;
     opt_proxyConfiguration := None;
     opt_preNavigationHooks := None;
     opt_postNavigationHooks := None |}.

Definition fractionalCrawler : Crawler unit :=
  {| handlePageFunction := fun e => (Settles 60000 (Ok tt), e);
     handlePageTimeoutSecs := 50.6534; handlePageTimeoutMillis := 50.6534 * 1000;
     gotoFunction := Some (fun _ e => (Ok (StatusResponse 0), e));
     gotoOptions := ∅; persistCookiesPerSession := true; proxyConfiguration := None;
     preNavigationHooks := []; postNavigationHooks := [];
     sessionPool := Some 1; browserPool := 2 |}.

End Examples.

(** ** Further calls and concrete cases *)

(** The calls that read or write cookies, on the session or on the page. *)
Definition cookie_call (c : Call) : bool :=
  match c with
  | CGetPuppeteerCookies _ _ | CSetCookies _ _ _ | CGetCookies _ _
  | CSetPuppeteerCookies _ _ _ => true
  | _ => false
  end.

(** The calls a crawler makes only on behalf of a session pool. *)
Definition session_pool_call (c : Call) : bool :=
  cookie_call c || is_status c || is_sessionRetire c.

Definition is_newProxyInfo (c : Call) : bool :=
  match c with CNewProxyInfo _ => true | _ => false end.

Definition is_extend (c : Call) : bool :=
  match c with CExtend _ _ => true | _ => false end.

Module MoreExamples.

Import Examples.

(** A second controller, with its launch context at address 5. *)
Definition bc2 : BrowserController := {| controller_ref := 2; launchContext := 5 |}.

(** Two browsers: [bc1] bound to [s1], [bc2] bound to [s2]. *)
Definition env2 : Env unit :=
  {| ext := tt;
     ctx := {| id := "attempt-1"; request := 0; page := None; browserController := None;
               session := VUndefined; proxyInfo := VUndefined; response := NoResponse |};
     requests := fun _ => {| url := "http://a.test/"; loadedUrl := None |};
     objects := fun l => if (l =? 0)%nat then {["session" := VSession s1]}
                         else if (l =? 5)%nat then {["session" := VSession s2]} else ∅;
     nextObject := 6; retiredListeners := []; closedListeners := []; nextListener := 0 |}.

(** Collaborators that fail where the flags say: [page.close] rejects, the
    pool knows no controller for the page, [newProxyInfo] rejects, the launch
    context refuses every [extend]. *)
Definition K1 (closeFails noController proxyFails extendFails : bool) : Collaborators unit :=
  {| newPage := fun _ e => (Ok 7, e);
     getBrowserControllerByPage := fun _ _ => if noController then None else Some bc1;
     retireBrowserController := fun _ e => (Ok tt, e);
     setCookies := fun _ _ _ e => (Ok tt, e);
     getCookies := fun _ _ e => (Ok [("k", "v")], e);
     page_url := fun _ e => (Ok "http://a.test/redirected", e);
     page_close := fun _ e =>
       if closeFails then (Throw (JsError "Protocol error"), e) else (Ok tt, e);
     status := fun _ e => (Ok 200%Z, e);
     getPuppeteerCookies := fun _ _ e => (Ok [], e);
     setPuppeteerCookies := fun _ _ _ e => (Ok tt, e);
     markGood := fun _ e => (Ok tt, e);
     retire := fun _ e => e;
     blockedStatusCodes := [401; 403; 429]%Z;
     getSession := fun e => (Ok s1, e);
     newProxyInfo := fun sid e =>
       if proxyFails then (Throw (JsError "no proxy"), e)
       else (Ok {| proxy_url := "http://proxy.test:8000"; proxy_sessionId := sid |}, e);
     extend := fun o fields =>
       if extendFails then Throw (JsError "cannot extend") else Ok (fields ∪ o);
     ow := fun _ => None;
     BASIC_CRAWLER_TIMEOUT_MULTIPLIER := 10;
     super_BasicCrawler := fun _ e => (Ok tt, e);
     new_SessionPool := fun e => (Ok 1, e);
     new_BrowserPool := fun e => (Ok 2, e) |}.

(** A crawler without a navigation function, with hook A registered. *)
Definition crawlerNoGoto : Crawler unit :=
  {| handlePageFunction := fun e => (Settles 10 (Ok tt), e);
     handlePageTimeoutSecs := 1; handlePageTimeoutMillis := 1000;
     gotoFunction := None;
     gotoOptions := ∅; persistCookiesPerSession := false; proxyConfiguration := None;
     preNavigationHooks := [hookA]; postNavigationHooks := [hookB];
     sessionPool := None; browserPool := 2 |}.

(** A crawler whose navigation function hands back something without a
    [status] function. *)
Definition crawlerMalformed : Crawler unit :=
  {| handlePageFunction := fun e => (Settles 10 (Ok tt), e);
     handlePageTimeoutSecs := 1; handlePageTimeoutMillis := 1000;
     gotoFunction := Some (fun _ e => (Ok MalformedResponse, e));
     gotoOptions := ∅; persistCookiesPerSession := true; proxyConfiguration := None;
     preNavigationHooks := []; postNavigationHooks := [];
     sessionPool := Some 1; browserPool := 2 |}.

(** Options that switch the session pool off; cookie persistence is switched
    off too, or left out. *)
Definition optionsWithoutPool (persist : option bool) : BrowserCrawlerOptions unit :=
  {| opt_handlePageFunction := fun e => (Settles 10 (Ok tt), e);
     opt_handlePageTimeoutSecs := None;
     opt_gotoFunction := Some (fun _ e => (Ok (StatusResponse 0), e));
     opt_persistCookiesPerSession := persist;
     opt_useSessionPool := Some false;
     opt_proxyConfiguration := None;
     opt_preNavigationHooks := None;
     opt_postNavigationHooks := None |}.

(** The crawler [optionsWithoutPool (Some false)] makes. *)
Definition crawlerWithoutPool : Crawler unit :=
  {| handlePageFunction := fun e => (Settles 10 (Ok tt), e);
     handlePageTimeoutSecs := 60; handlePageTimeoutMillis := 60000;
     gotoFunction := Some (fun _ e => (Ok (StatusResponse 0), e));
     gotoOptions := ∅; persistCookiesPerSession := false; proxyConfiguration := None;
     preNavigationHooks := []; postNavigationHooks := [];
     sessionPool := None; browserPool := 2 |}.

(** The two browsers with their listeners registered: [bc1], bound to [s1],
    first, and [bc2], bound to [s2], after it. *)
Definition twoBrowsers : Env unit :=
  installed (crawler0 true (Some 1) [] (Settles 10 (Ok tt))) "page-2" bc2
    (installed (crawler0 true (Some 1) [] (Settles 10 (Ok tt))) "page-1" bc1 env2).

End MoreExamples.

Section Properties.

Context {Ext : Type} (K : Collaborators Ext).

(** *** The call log *)

Lemma count_app p l1 l2 : count p (l1 ++ l2) = count p l1 + count p l2.
Proof. unfold count. by rewrite List.filter_app, length_app. Qed.

Lemma count_cons p c l : count p (c :: l) = (if p c then 1 else 0) + count p l.
Proof. unfold count. simpl. by destruct (p c). Qed.

Lemma count_nil p : count p [] = 0.
Proof. reflexivity. Qed.

(** *** Sequencing *)

Lemma bind_ok {A B} (m : M Ext A) (k : A -> M Ext B) e a e1 l1 :
  m e = (Ok a, e1, l1) ->
  bind m k e = (let '(o, e2, l2) := k a e1 in (o, e2, l1 ++ l2)).
Proof. intros H. unfold bind. by rewrite H. Qed.

Lemma bind_throw {A B} (m : M Ext A) (k : A -> M Ext B) e x e1 l1 :
  m e = (Throw x, e1, l1) -> bind m k e = (Throw x, e1, l1).
Proof. intros H. unfold bind. by rewrite H. Qed.

Lemma forallb_count (q p : Call -> bool) l :
  forallb q l = true -> (forall c, q c = true -> p c = false) -> count p l = 0.
Proof.
  intros Hq Hqp. induction l as [|c l IH]; [done|].
  simpl in Hq. apply andb_prop in Hq as [Hc Hl].
  rewrite count_cons, (Hqp c Hc), (IH Hl). reflexivity.
Qed.

Lemma within_never {A} (q p : Call -> bool) (m : M Ext A) :
  calls_within q m -> (forall c, q c = true -> p c = false) -> never_calls p m.
Proof. intros Hm Hqp e. by apply (forallb_count q). Qed.

Lemma within_weaken {A} (q q' : Call -> bool) (m : M Ext A) :
  calls_within q m -> (forall c, q c = true -> q' c = true) -> calls_within q' m.
Proof.
  intros Hm Hqq e. specialize (Hm e). revert Hm.
  induction (log (m e)) as [|c l IH]; simpl; [done|].
  intros [Hc Hl]%andb_prop. by rewrite (Hqq c Hc), (IH Hl).
Qed.

Lemma within_ret {A} q (a : A) : calls_within q (ret (Ext := Ext) a).
Proof. by intros e. Qed.

Lemma within_throw {A} q x : calls_within q (throw (Ext := Ext) (A := A) x).
Proof. by intros e. Qed.

Lemma within_get q : calls_within q (get (Ext := Ext)).
Proof. by intros e. Qed.

Lemma within_modify q f : calls_within q (modify (Ext := Ext) f).
Proof. by intros e. Qed.

Lemma within_call {A} q c (f : Env Ext -> Outcome A * Env Ext) :
  q c = true -> calls_within q (call c f).
Proof.
  intros Hc e. unfold call, log. destruct (f e) as [o e1]. simpl. by rewrite Hc.
Qed.

Lemma within_bind {A B} q (m : M Ext A) (k : A -> M Ext B) :
  calls_within q m -> (forall a, calls_within q (k a)) -> calls_within q (bind m k).
Proof.
  intros Hm Hk e. specialize (Hm e). unfold bind, log in *.
  destruct (m e) as [[[a|x] e1] l1]; simpl in *; [|done].
  specialize (Hk a e1). unfold log in Hk.
  destruct (k a e1) as [[o e2] l2]. simpl in *. rewrite forallb_app. by rewrite Hm, Hk.
Qed.

Lemma within_try_catch {A} q (m : M Ext A) h :
  calls_within q m -> (forall x, calls_within q (h x)) -> calls_within q (try_catch m h).
Proof.
  intros Hm Hh e. specialize (Hm e). unfold try_catch, log in *.
  destruct (m e) as [[[a|x] e1] l1]; simpl in *; [done|].
  specialize (Hh x e1). unfold log in Hh.
  destruct (h x e1) as [[o e2] l2]. simpl in *. rewrite forallb_app. by rewrite Hm, Hh.
Qed.

Ltac within_step :=
  first
    [ apply within_ret | apply within_throw | apply within_get | apply within_modify
    | apply within_call; reflexivity
    | apply within_bind; [|intros ?]
    | apply within_try_catch; [|intros ?]
    | match goal with
      | |- calls_within _ (match ?x with _ => _ end) => destruct x
      end ].
Ltac within := repeat within_step.

(** *** The calls of each stage *)

Lemma executeHooks_calls (hooks : list (Hook Ext)) gotoOptions :
  calls_within is_hook (_executeHooks hooks gotoOptions).
Proof.
  induction hooks as [|h rest IH]; simpl; [apply within_ret|].
  apply within_bind; [by apply within_call|intros _; exact IH].
Qed.

Lemma handleNavigation_calls (this : Crawler Ext) :
  calls_within navigation_call (_handleNavigation this).
Proof.
  assert (Hh : forall hooks l, calls_within navigation_call
                 (_executeHooks (Ext := Ext) hooks l)).
  { intros hooks l. eapply within_weaken; [apply executeHooks_calls|by intros []]. }
  unfold _handleNavigation, _navigationHandler.
  apply within_bind; [by intros e|intros l].
  apply within_bind; [apply Hh|intros _].
  apply within_bind; [within|intros r].
  apply within_bind; [within|intros _]. apply Hh.
Qed.

Lemma responseHandler_calls this : calls_within response_call (_responseHandler K this).
Proof.
  unfold _responseHandler, throwOnBlockedRequest, log_debug, as_session, defined. within.
Qed.

Lemma saveCookies_calls page request session :
  calls_within save_call (saveCookies K page request session).
Proof. unfold saveCookies, as_session, defined. within. Qed.

Lemma beforeHandler_calls this page request session :
  calls_within before_handler_call (beforeHandler K this page request session).
Proof.
  unfold beforeHandler.
  apply within_bind; [|intros _; apply within_bind; [|intros _]].
  - eapply within_weaken; [apply handleNavigation_calls|].
    intros c Hc. unfold before_handler_call. by rewrite Hc.
  - eapply within_weaken; [apply responseHandler_calls|].
    intros c Hc. unfold before_handler_call. rewrite Hc. by destruct (navigation_call c).
  - destruct (persistCookiesPerSession this); [|apply within_ret].
    eapply within_weaken; [apply saveCookies_calls|].
    intros c Hc. unfold before_handler_call. rewrite Hc.
    by destruct (navigation_call c), (response_call c).
Qed.

Lemma openPage_calls this : calls_within open_call (openPage K this).
Proof.
  unfold openPage, _enhanceCrawlingContextWithPageInfo, restoreCookies, as_session, defined.
  within.
Qed.

Lemma closePage_calls page : calls_within close_call (closePage K page).
Proof. unfold closePage, log_debug. within. Qed.

Lemma markSessionGood_calls session : calls_within is_markGood (markSessionGood K session).
Proof. unfold markSessionGood, as_session. within. Qed.

(** *** Closing the page *)

Lemma closePage_returns page e :
  outcome (closePage K page e) = Ok tt /\
  count is_pageClose (log (closePage K page e)) = 1.
Proof.
  unfold closePage, try_catch, call, log_debug, outcome, log.
  destruct (page_close K page e) as [[[]|x] e1]; simpl; auto.
Qed.

Lemma try_finally_closePage {A} (body : M Ext A) page e :
  try_finally body (closePage K page) e
  = (outcome (body e), store (closePage K page (store (body e))),
     log (body e) ++ log (closePage K page (store (body e)))).
Proof.
  unfold try_finally, outcome, log, store.
  destruct (body e) as [[o e1] l1]. simpl.
  pose proof (closePage_returns page e1) as [Ho _]. unfold outcome in Ho.
  destruct (closePage K page e1) as [[[[]|x] e2] l2]; simpl in *; [done|discriminate].
Qed.

(** Once the page is open, it is closed exactly once whatever the [try] block does. *)
Lemma handleRequest_run this e page request session e0 l0 :
  openPage K this e = (Ok (page, request, session), e0, l0) ->
  _handleRequestFunction K this e
  = (let body := tryBlock K this page request session e0 in
     let closing := closePage K page (store body) in
     (outcome body, store closing, l0 ++ log body ++ log closing)).
Proof.
  intros Hopen. unfold _handleRequestFunction. rewrite (bind_ok _ _ _ _ _ _ Hopen).
  by rewrite try_finally_closePage.
Qed.

Lemma tryBlock_never_closes this page request session :
  never_calls is_pageClose (tryBlock K this page request session).
Proof.
  unfold tryBlock. intros e.
  assert (H : calls_within (fun c => before_handler_call c || is_handlePage c || is_markGood c)
                (tryBlock K this page request session)).
  { unfold tryBlock. apply within_bind; [|intros _; apply within_bind; [|intros _]].
    - eapply within_weaken; [apply beforeHandler_calls|]. intros c Hc. by rewrite Hc.
    - intros e'. unfold runHandlePageFunction, log.
      destruct (handlePageFunction this e') as [pr e1]. reflexivity.
    - eapply within_weaken; [apply markSessionGood_calls|]. intros c Hc. rewrite Hc.
      by destruct (before_handler_call c), (is_handlePage c). }
  eapply within_never; [exact H|]. by intros [].
Qed.

Lemma handleRequest_closes_once this e opened e0 l0 :
  openPage K this e = (Ok opened, e0, l0) ->
  count is_pageClose (log (_handleRequestFunction K this e)) = 1.
Proof.
  destruct opened as [[page request] session]. intros Hopen.
  rewrite (handleRequest_run _ _ _ _ _ _ _ Hopen). cbn zeta. unfold log at 1. simpl.
  rewrite !count_app.
  assert (count is_pageClose l0 = 0) as ->.
  { pose proof (within_never _ is_pageClose _ (openPage_calls this)) as H.
    specialize (H ltac:(by intros []) e). by rewrite Hopen in H. }
  rewrite (tryBlock_never_closes this page request session e0).
  by destruct (closePage_returns page (store (tryBlock K this page request session e0))) as [_ ->].
Qed.

Lemma log_never {A} (q p : Call -> bool) (m : M Ext A) e o e1 l :
  calls_within q m -> (forall c, q c = true -> p c = false) ->
  m e = (o, e1, l) -> count p l = 0.
Proof.
  intros Hm Hqp Hrun. pose proof (within_never q p m Hm Hqp e) as H.
  by rewrite Hrun in H.
Qed.

(** *** The [try] block *)

Lemma tryBlock_throws_before_handler this page request session e x e1 l1 :
  beforeHandler K this page request session e = (Throw x, e1, l1) ->
  tryBlock K this page request session e = (Throw x, e1, l1).
Proof. intros H. unfold tryBlock. by rewrite (bind_throw _ _ _ _ _ _ H). Qed.

Lemma tryBlock_reaches_handler this page request session e e3 l3 :
  beforeHandler K this page request session e = (Ok tt, e3, l3) ->
  tryBlock K this page request session e
  = (let '(promise, e4) := handlePageFunction this e3 in
     match addTimeoutToPromise promise (handlePageTimeoutMillis this)
             (timeoutMessage (handlePageTimeoutMillis this)) with
     | Ok _ =>
         let '(o, e5, l5) := markSessionGood K session e4 in
         (o, e5, l3 ++ CHandlePageFunction :: l5)
     | Throw x => (Throw x, e4, l3 ++ [CHandlePageFunction])
     end).
Proof.
  intros H. unfold tryBlock. rewrite (bind_ok _ _ _ _ _ _ H).
  unfold bind, runHandlePageFunction.
  destruct (handlePageFunction this e3) as [promise e4].
  destruct (addTimeoutToPromise _ _ _) as [[]|x]; [|done].
  by destruct (markSessionGood K session e4) as [[o e5] l5].
Qed.

Lemma addTimeoutToPromise_expired {A} (promise : Promise A) timeoutMillis msg :
  settles_within promise timeoutMillis = false ->
  addTimeoutToPromise promise timeoutMillis msg = Throw (JsError msg).
Proof. destruct promise as [t o|]; simpl; [|done]. by intros ->. Qed.

(** *** Text inside a text *)

Lemma prefix_app (part rest : string) : String.prefix part (part +:+ rest) = true.
Proof.
  induction part as [|c part IH]; simpl; [by destruct rest|].
  destruct (Ascii.ascii_dec c c); [exact IH|done].
Qed.

Lemma includes_middle (before part rest : string) :
  includes (before +:+ part +:+ rest) part = true.
Proof.
  induction before as [|c before IH].
  - change (includes (part +:+ rest) part = true).
    pose proof (prefix_app part rest) as H.
    destruct (part +:+ rest); unfold includes; fold includes; rewrite H; done.
  - change (includes (String c (before +:+ part +:+ rest)) part = true).
    unfold includes; fold includes. rewrite IH. apply orb_true_r.
Qed.

(** *** The constructor *)
Lemma constructor_fields options e this e' l :
  constructor K options e = (Ok this, e', l) ->
  handlePageTimeoutSecs this = default 60%float (opt_handlePageTimeoutSecs options) /\
  handlePageTimeoutMillis this = (handlePageTimeoutSecs this * 1000)%float /\
  persistCookiesPerSession this = default true (opt_persistCookiesPerSession options) /\
  (is_Some (sessionPool this) <-> default true (opt_useSessionPool options) = true) /\
  (persistCookiesPerSession this = true -> is_Some (sessionPool this)).
Proof.
  unfold constructor. destruct (ow K options); [discriminate|].
  destruct (default true (opt_useSessionPool options)) eqn:Hu,
           (default true (opt_persistCookiesPerSession options)) eqn:Hp; simpl;
    try discriminate.
  all: unfold bind, call, ret.
  all: destruct (super_BasicCrawler K _ e) as [[[]|?] ?]; try discriminate.
  all: try (destruct (new_SessionPool K _) as [[?|?] ?]; try discriminate).
  all: destruct (new_BrowserPool K _) as [[?|?] ?]; try discriminate.
  all: intros [= <- _ _]; simpl; repeat split; eauto; try done.
  all: try (intros [? [=]]).
  all: try (by intros [? ?]).
Qed.

(** *** Response handling *)

Lemma responseHandler_blocked this e1 sp r st e2 s :
  sessionPool this = Some sp ->
  response (ctx e1) = StatusResponse r ->
  status K r e1 = (Ok st, e2) ->
  st ∈ blockedStatusCodes K ->
  session (ctx e1) = VSession s ->
  _responseHandler K this e1
  = (Throw (blockedResponseError st), retire K s e2, [CStatus r; CSessionRetire s]).
Proof.
  intros Hsp Hr Hst Hb Hs. unfold _responseHandler, bind, get. simpl.
  rewrite Hsp, Hr. unfold call. rewrite Hst. unfold throwOnBlockedRequest.
  rewrite bool_decide_eq_true_2 by done. rewrite Hs. reflexivity.
Qed.

Lemma saveCookies_ok page request session e e' l :
  saveCookies K page request session e = (Ok tt, e', l) ->
  exists bc cookies e1 s,
    browserController (ctx e) = Some bc /\
    getCookies K bc page e = (Ok cookies, e1) /\
    session = VSession s /\
    setPuppeteerCookies K s cookies (loadedUrl (requests e1 request)) e1 = (Ok tt, e') /\
    l = [CGetCookies bc page;
         CSetPuppeteerCookies s cookies (loadedUrl (requests e1 request))].
Proof.
  unfold saveCookies, bind, get, defined, call, as_session, ret, throw. simpl.
  destruct (browserController (ctx e)) as [bc|]; [|discriminate].
  destruct (getCookies K bc page e) as [[cookies|x] e1] eqn:Hget; [|discriminate].
  destruct session as [| | | |s|]; try discriminate.
  destruct (setPuppeteerCookies K s cookies _ e1) as [[[]|x] e2] eqn:Hset; [|discriminate].
  intros [= <- <-]. by exists bc, cookies, e1, s.
Qed.

Lemma beforeHandler_ok_captured this page request session e e3 l3 :
  persistCookiesPerSession this = true ->
  beforeHandler K this page request session e = (Ok tt, e3, l3) ->
  exists e1 l1 e2 l2 bc cookies e2' s,
    _handleNavigation this e = (Ok tt, e1, l1) /\
    _responseHandler K this e1 = (Ok tt, e2, l2) /\
    browserController (ctx e2) = Some bc /\
    getCookies K bc page e2 = (Ok cookies, e2') /\
    session = VSession s /\
    setPuppeteerCookies K s cookies (loadedUrl (requests e2' request)) e2' = (Ok tt, e3) /\
    l3 = l1 ++ l2 ++ [CGetCookies bc page;
                      CSetPuppeteerCookies s cookies (loadedUrl (requests e2' request))].
Proof.
  intros Hp. unfold beforeHandler. rewrite Hp.
  unfold bind at 1.
  destruct (_handleNavigation this e) as [[[[]|x] e1] l1] eqn:Hnav; [|discriminate].
  unfold bind at 1.
  destruct (_responseHandler K this e1) as [[[[]|x] e2] l2] eqn:Hresp; [|discriminate].
  destruct (saveCookies K page request session e2) as [[[[]|x] e2'] l2'] eqn:Hsave;
    [|discriminate].
  apply saveCookies_ok in Hsave as (bc & cookies & e2'' & s & Hbc & Hget & Hs & Hset & ->).
  intros [= <- <-]. exists e1, l1, e2, l2, bc, cookies, e2'', s.
  repeat split; done.
Qed.

(** C6 (where the code departs from it): the crawler was made by the
    constructor from [options]; the page was opened and navigation, response
    handling and cookie capture went through; the handler's promise does not
    settle within the configured timeout.  Then the attempt fails with the
    timeout error, the handler was invoked once, [session.markGood] is not
    called and the page is closed once.  The number the message gives is
    [handlePageTimeoutMillis / 1000]: the configured [handlePageTimeoutSecs]
    (60 when the option is left out) multiplied by 1000 and divided by 1000
    again, in double precision.  Where that round trip gives the configured
    number back, the message includes it; where it does not, the message
    gives another number. *)
Theorem handler_timeout_fails_attempt options ec this ec' lc e page request session
    e0 l0 e3 l3 promise e4 :
  constructor K options ec = (Ok this, ec', lc) ->
  openPage K this e = (Ok (page, request, session), e0, l0) ->
  beforeHandler K this page request session e0 = (Ok tt, e3, l3) ->
  handlePageFunction this e3 = (promise, e4) ->
  settles_within promise (handlePageTimeoutMillis this) = false ->
  outcome (_handleRequestFunction K this e)
  = Throw (JsError ("handlePageFunction timed out after "
                    +:+ Number_toString
                          (default 60 (opt_handlePageTimeoutSecs options) * 1000 / 1000)%float
                    +:+ " seconds.")) /\
  (forall message,
     outcome (_handleRequestFunction K this e) = Throw (JsError message) ->
     (default 60 (opt_handlePageTimeoutSecs options) * 1000 / 1000)%float
     = default 60%float (opt_handlePageTimeoutSecs options) ->
     includes message
       (Number_toString (default 60%float (opt_handlePageTimeoutSecs options))) = true) /\
  count is_markGood (log (_handleRequestFunction K this e)) = 0 /\
  count is_handlePage (log (_handleRequestFunction K this e)) = 1 /\
  count is_pageClose (log (_handleRequestFunction K this e)) = 1.
Proof.
  intros Hc Hopen Hbefore Hh Hlate.
  apply constructor_fields in Hc as (Hsecs & Hmillis & _).
  rewrite (handleRequest_run _ _ _ _ _ _ _ Hopen).
  rewrite (tryBlock_reaches_handler _ _ _ _ _ _ _ Hbefore), Hh.
  rewrite (addTimeoutToPromise_expired _ _ _ Hlate). cbn zeta.
  unfold outcome, log, store. simpl.
  pose proof (closePage_calls page e4) as Hclose. unfold log in Hclose.
  pose proof (closePage_returns page e4) as [_ Hone]. unfold log in Hone.
  assert (Hmsg : timeoutMessage (handlePageTimeoutMillis this)
                 = "handlePageFunction timed out after "
                   +:+ Number_toString
                         (default 60 (opt_handlePageTimeoutSecs options) * 1000 / 1000)%float
                   +:+ " seconds.").
  { unfold timeoutMessage. by rewrite Hmillis, Hsecs. }
  split; [by rewrite Hmsg|]. split; [|repeat split].
  - intros message [= <-] Hround. rewrite Hmsg, Hround. apply includes_middle.
  - rewrite !count_app, count_cons, count_nil. simpl.
    rewrite (log_never _ is_markGood _ _ _ _ _ (openPage_calls this)
               ltac:(by intros []) Hopen).
    rewrite (log_never _ is_markGood _ _ _ _ _ (beforeHandler_calls this page request session)
               ltac:(by intros []) Hbefore).
    by rewrite (forallb_count close_call is_markGood _ (Hclose) ltac:(by intros [])).
  - rewrite !count_app, count_cons, count_nil. simpl.
    rewrite (log_never _ is_handlePage _ _ _ _ _ (openPage_calls this)
               ltac:(by intros []) Hopen).
    rewrite (log_never _ is_handlePage _ _ _ _ _ (beforeHandler_calls this page request session)
               ltac:(by intros []) Hbefore).
    by rewrite (forallb_count close_call is_handlePage _ (Hclose) ltac:(by intros [])).
  - rewrite !count_app, count_cons, count_nil. simpl.
    rewrite (log_never _ is_pageClose _ _ _ _ _ (openPage_calls this)
               ltac:(by intros []) Hopen).
    rewrite (log_never _ is_pageClose _ _ _ _ _ (beforeHandler_calls this page request session)
               ltac:(by intros []) Hbefore).
    by rewrite Hone.
Qed.

(** C3, as amended: the crawler has a session pool; the page was opened and
    navigation went through, leaving a response with a [status] accessor that
    reports a status of the blocked set, and the context's session is [s].
    Then [s] is retired (once, right after the status was read), the attempt
    fails with the blocked-response error, the handler is not invoked and the
    page is closed once. *)
Theorem blocked_status_retires_session this e page request session e0 l0 e1 l1
    sp r st e2 s :
  sessionPool this = Some sp ->
  openPage K this e = (Ok (page, request, session), e0, l0) ->
  _handleNavigation this e0 = (Ok tt, e1, l1) ->
  response (ctx e1) = StatusResponse r ->
  status K r e1 = (Ok st, e2) ->
  st ∈ blockedStatusCodes K ->
  BrowserCrawler.session (ctx e1) = VSession s ->
  outcome (_handleRequestFunction K this e) = Throw (blockedResponseError st) /\
  log (_handleRequestFunction K this e)
  = l0 ++ (l1 ++ [CStatus r; CSessionRetire s]) ++ log (closePage K page (retire K s e2)) /\
  count is_sessionRetire (log (_handleRequestFunction K this e)) = 1 /\
  count is_handlePage (log (_handleRequestFunction K this e)) = 0 /\
  count is_pageClose (log (_handleRequestFunction K this e)) = 1.
Proof.
  intros Hsp Hopen Hnav Hr Hst Hb Hs.
  assert (Hbefore : beforeHandler K this page request session e0
                    = (Throw (blockedResponseError st), retire K s e2,
                       l1 ++ [CStatus r; CSessionRetire s])).
  { unfold beforeHandler. rewrite (bind_ok _ _ _ _ _ _ Hnav).
    by rewrite (bind_throw _ _ _ _ _ _ (responseHandler_blocked _ _ _ _ _ _ _ Hsp Hr Hst Hb Hs)). }
  rewrite (handleRequest_run _ _ _ _ _ _ _ Hopen).
  rewrite (tryBlock_throws_before_handler _ _ _ _ _ _ _ _ Hbefore). cbn zeta.
  unfold outcome, log, store. simpl.
  pose proof (closePage_calls page (retire K s e2)) as Hclose. unfold log in Hclose.
  pose proof (closePage_returns page (retire K s e2)) as [_ Hone]. unfold log in Hone.
  pose proof (log_never _ is_sessionRetire _ _ _ _ _ (openPage_calls this)
                ltac:(by intros []) Hopen) as H0r.
  pose proof (log_never _ is_handlePage _ _ _ _ _ (openPage_calls this)
                ltac:(by intros []) Hopen) as H0h.
  pose proof (log_never _ is_pageClose _ _ _ _ _ (openPage_calls this)
                ltac:(by intros []) Hopen) as H0c.
  pose proof (log_never _ is_sessionRetire _ _ _ _ _ (handleNavigation_calls this)
                ltac:(by intros []) Hnav) as H1r.
  pose proof (log_never _ is_handlePage _ _ _ _ _ (handleNavigation_calls this)
                ltac:(by intros []) Hnav) as H1h.
  pose proof (log_never _ is_pageClose _ _ _ _ _ (handleNavigation_calls this)
                ltac:(by intros []) Hnav) as H1c.
  repeat split.
  - rewrite !count_app, !count_cons, count_nil, H0r, H1r. simpl.
    by rewrite (forallb_count close_call is_sessionRetire _ Hclose ltac:(by intros [])).
  - rewrite !count_app, !count_cons, count_nil, H0h, H1h. simpl.
    by rewrite (forallb_count close_call is_handlePage _ Hclose ltac:(by intros [])).
  - rewrite !count_app, !count_cons, count_nil, H0c, H1c. simpl. by rewrite Hone.
Qed.

(** C2, as amended: with cookie persistence, whenever the handler is invoked
    -- whether it then succeeds, fails or times out -- the page was opened,
    navigation and the response handler returned, and then [getCookies] was
    called on the attempt's page through the context's controller, and the
    cookies it answered were stored in the attempt's session with
    [setPuppeteerCookies] under what [request.loadedUrl] held at that moment;
    that call returned and the handler was invoked right after it.  Cookies
    are captured at no other point of the attempt. *)
Theorem cookies_captured_before_handler this e :
  persistCookiesPerSession this = true ->
  count is_handlePage (log (_handleRequestFunction K this e)) = 1 ->
  exists page request session e0 l0 e1 l1 e2 l2 bc cookies e2' s e3 after,
    openPage K this e = (Ok (page, request, session), e0, l0) /\
    _handleNavigation this e0 = (Ok tt, e1, l1) /\
    _responseHandler K this e1 = (Ok tt, e2, l2) /\
    browserController (ctx e2) = Some bc /\
    getCookies K bc page e2 = (Ok cookies, e2') /\
    session = VSession s /\
    setPuppeteerCookies K s cookies (loadedUrl (requests e2' request)) e2' = (Ok tt, e3) /\
    log (_handleRequestFunction K this e)
    = (l0 ++ l1 ++ l2)
        ++ [CGetCookies bc page;
            CSetPuppeteerCookies s cookies (loadedUrl (requests e2' request));
            CHandlePageFunction]
        ++ after /\
    count save_call (l0 ++ l1 ++ l2) = 0 /\ count is_handlePage (l0 ++ l1 ++ l2) = 0 /\
    count save_call after = 0 /\ count is_handlePage after = 0.
Proof.
  intros Hp Hinvoked.
  destruct (openPage K this e) as [[[[[page request] session]|x] e0] l0] eqn:Hopen.
  2:{ unfold _handleRequestFunction in Hinvoked.
      rewrite (bind_throw _ _ _ _ _ _ Hopen) in Hinvoked. unfold log in Hinvoked.
      simpl in Hinvoked.
      rewrite (log_never _ is_handlePage _ _ _ _ _ (openPage_calls this)
                 ltac:(by intros []) Hopen) in Hinvoked. discriminate. }
  rewrite (handleRequest_run _ _ _ _ _ _ _ Hopen) in *. cbn zeta in *.
  pose proof (log_never _ is_handlePage _ _ _ _ _ (openPage_calls this)
                ltac:(by intros []) Hopen) as H0h.
  pose proof (log_never _ save_call _ _ _ _ _ (openPage_calls this)
                ltac:(by intros []) Hopen) as H0s.
  assert (Hclose : forall e', count is_handlePage (log (closePage K page e')) = 0
                              /\ count save_call (log (closePage K page e')) = 0).
  { intros e'. pose proof (closePage_calls page e') as Hc. split.
    - by apply (forallb_count close_call is_handlePage _ Hc); intros [].
    - by apply (forallb_count close_call save_call _ Hc); intros []. }
  destruct (beforeHandler K this page request session e0) as [[[[]|x] e3] l3] eqn:Hbefore.
  2:{ rewrite (tryBlock_throws_before_handler _ _ _ _ _ _ _ _ Hbefore) in Hinvoked.
      unfold log at 1 in Hinvoked. unfold log at 1 in Hinvoked. unfold store in Hinvoked.
      simpl in Hinvoked. rewrite !count_app, H0h in Hinvoked.
      rewrite (log_never _ is_handlePage _ _ _ _ _
                 (beforeHandler_calls this page request session)
                 ltac:(by intros []) Hbefore) in Hinvoked.
      destruct (Hclose e3) as [Hc _]. rewrite Hc in Hinvoked. discriminate. }
  clear Hinvoked.
  destruct (beforeHandler_ok_captured _ _ _ _ _ _ _ Hp Hbefore)
    as (e1 & l1 & e2 & l2 & bc & cookies & e2' & s & Hnav & Hresp & Hbc & Hget & Hs & Hset
        & Hl3).
  rewrite (tryBlock_reaches_handler _ _ _ _ _ _ _ Hbefore).
  pose proof (log_never _ is_handlePage _ _ _ _ _ (handleNavigation_calls this)
                ltac:(by intros []) Hnav) as H1h.
  pose proof (log_never _ save_call _ _ _ _ _ (handleNavigation_calls this)
                ltac:(by intros []) Hnav) as H1s.
  pose proof (log_never _ is_handlePage _ _ _ _ _ (responseHandler_calls this)
                ltac:(by intros []) Hresp) as H2h.
  pose proof (log_never _ save_call _ _ _ _ _ (responseHandler_calls this)
                ltac:(by intros []) Hresp) as H2s.
  destruct (handlePageFunction this e3) as [promise e4].
  destruct (addTimeoutToPromise _ _ _) as [[]|x].
  - pose proof (markSessionGood_calls session e4) as Hm.
    destruct (markSessionGood K session e4) as [[o e5] l5].
    destruct (Hclose e5) as [Hch Hcs]. unfold log, store in *. simpl in *.
    exists page, request, session, e0, l0, e1, l1, e2, l2, bc, cookies, e2', s, e3,
      (l5 ++ (closePage K page e5).2).
    repeat split; try done.
    + rewrite Hl3. by rewrite <- !app_assoc.
    + by rewrite !count_app, H0s, H1s, H2s.
    + by rewrite !count_app, H0h, H1h, H2h.
    + rewrite count_app, Hcs.
      by rewrite (forallb_count is_markGood save_call _ Hm ltac:(by intros [])).
    + rewrite count_app, Hch.
      by rewrite (forallb_count is_markGood is_handlePage _ Hm ltac:(by intros [])).
  - destruct (Hclose e4) as [Hch Hcs]. unfold log, store in *. simpl in *.
    exists page, request, session, e0, l0, e1, l1, e2, l2, bc, cookies, e2', s, e3,
      ((closePage K page e4).2).
    repeat split; try done.
    + rewrite Hl3. by rewrite <- !app_assoc.
    + by rewrite !count_app, H0s, H1s, H2s.
    + by rewrite !count_app, H0h, H1h, H2h.
Qed.

Lemma within_try_finally {A} q (m : M Ext A) fin :
  calls_within q m -> calls_within q fin -> calls_within q (try_finally m fin).
Proof.
  intros Hm Hf e. specialize (Hm e). unfold try_finally, log in *.
  destruct (m e) as [[o e1] l1]. specialize (Hf e1). unfold log in Hf.
  destruct (fin e1) as [[[[]|x] e2] l2]; simpl in *; rewrite forallb_app; by rewrite Hm, Hf.
Qed.

Lemma responseHandler_without_pool this e :
  sessionPool this = None ->
  _responseHandler K this e
  = (p <- defined (page (ctx e));;
     u <- call (CPageUrl p) (page_url K p);;
     modify (set_loadedUrl (request (ctx e)) u)) e.
Proof.
  intros Hsp. unfold _responseHandler. unfold bind at 1. unfold get at 1.
  rewrite Hsp. unfold bind at 1. unfold ret at 1.
  by destruct ((_ <- _;; _) e) as [[o e1] l1].
Qed.

(** C8, as amended: navigation went through and the response handler returned
    normally.  Then the page of the context was asked for its url after the
    response had been classified, it answered [u], and [u] is what
    [request.loadedUrl] holds when the handler returns -- whatever
    [request.url] is. *)
Theorem loadedUrl_set_from_page_url this e0 e1 l1 e2 l2 :
  _handleNavigation this e0 = (Ok tt, e1, l1) ->
  _responseHandler K this e1 = (Ok tt, e2, l2) ->
  exists p u e1' e2' l2',
    page (ctx e1) = Some p /\
    page_url K p e1' = (Ok u, e2') /\
    l2 = l2' ++ [CPageUrl p] /\
    e2 = set_loadedUrl (request (ctx e1)) u e2' /\
    loadedUrl (requests e2 (request (ctx e1))) = Some u.
Proof.
  intros _. unfold _responseHandler. unfold bind at 1. unfold get at 1.
  unfold bind at 1.
  destruct (match sessionPool this with _ => _ end e1) as [[[[]|x] e1'] l2'];
    [|discriminate].
  unfold bind, defined, call, modify, ret, throw.
  destruct (page (ctx e1)) as [p|]; [|discriminate].
  destruct (page_url K p e1') as [[u|x] e2'] eqn:Hurl; [|discriminate].
  intros [= <- <-]. exists p, u, e1', e2', l2'. repeat split; try done.
  unfold set_loadedUrl, set_requests. simpl. by rewrite fn_lookup_insert.
Qed.

(** C10: the crawler has no session pool.  (1) Whatever the response is, the
    response handler makes one call, [page.url()] on the context's page; when
    that call answers [u] the handler returns and the context's request holds
    [loadedUrl = u], its [url] and the other requests being as [page.url()]
    left them; when the call fails, its error is the only error the handler
    can end with.  (2) In an attempt whose navigation went through,
    [page.url()] is the first call after the navigation.  (3) The attempt as a
    whole neither reads a response status nor retires a session. *)
Theorem no_blocked_check_without_session_pool this e :
  sessionPool this = None ->
  (forall e1 p,
     page (ctx e1) = Some p ->
     log (_responseHandler K this e1) = [CPageUrl p] /\
     (forall u e2,
        page_url K p e1 = (Ok u, e2) ->
        outcome (_responseHandler K this e1) = Ok tt /\
        requests (store (_responseHandler K this e1)) (request (ctx e1))
        = {| url := url (requests e2 (request (ctx e1))); loadedUrl := Some u |} /\
        (forall r, r <> request (ctx e1) ->
           requests (store (_responseHandler K this e1)) r = requests e2 r)) /\
     (forall x e2,
        page_url K p e1 = (Throw x, e2) ->
        _responseHandler K this e1 = (Throw x, e2, [CPageUrl p]))) /\
  (forall page request session e0 l0 e1 l1 p,
     openPage K this e = (Ok (page, request, session), e0, l0) ->
     _handleNavigation this e0 = (Ok tt, e1, l1) ->
     BrowserCrawler.page (ctx e1) = Some p ->
     exists rest,
       log (_handleRequestFunction K this e) = l0 ++ l1 ++ CPageUrl p :: rest) /\
  count is_status (log (_handleRequestFunction K this e)) = 0 /\
  count is_sessionRetire (log (_handleRequestFunction K this e)) = 0.
Proof.
  intros Hsp.
  assert (Hone : forall e1 p, page (ctx e1) = Some p ->
            log (_responseHandler K this e1) = [CPageUrl p]).
  { intros e1 p Hp. rewrite (responseHandler_without_pool _ _ Hsp).
    unfold bind, defined, call, modify, ret, log. rewrite Hp.
    by destruct (page_url K p e1) as [[u|x] e2]. }
  split; [|split].
  - intros e1 p Hp. split; [by apply Hone|]. split.
    + intros u e2 Hurl. rewrite (responseHandler_without_pool _ _ Hsp).
      unfold bind, defined, call, modify, ret, outcome, store. rewrite Hp, Hurl. simpl.
      split; [done|]. split.
      * by rewrite fn_lookup_insert.
      * intros r Hr. by rewrite fn_lookup_insert_ne.
    + intros x e2 Hurl. rewrite (responseHandler_without_pool _ _ Hsp).
      unfold bind, defined, call, modify, ret. by rewrite Hp, Hurl.
  - intros page request session e0 l0 e1 l1 p Hopen Hnav Hp.
    rewrite (handleRequest_run _ _ _ _ _ _ _ Hopen). cbn zeta. unfold log at 1. simpl.
    assert (Hb : exists o eb restb,
              beforeHandler K this page request session e0
              = (o, eb, l1 ++ CPageUrl p :: restb)).
    { unfold beforeHandler. rewrite (bind_ok _ _ _ _ _ _ Hnav).
      pose proof (Hone e1 p Hp) as Hlog. unfold log in Hlog. unfold bind.
      destruct (_responseHandler K this e1) as [[[[]|x] er] lr]; simpl in Hlog; subst lr.
      - destruct ((if persistCookiesPerSession this
                   then saveCookies K page request session else ret tt) er)
          as [[o es] ls].
        by exists o, es, ls.
      - by exists (Throw x), er, []. }
    destruct Hb as (o & eb & restb & Hb).
    assert (Ht : exists restt,
              log (tryBlock K this page request session e0) = l1 ++ CPageUrl p :: restt).
    { unfold tryBlock, bind, log. rewrite Hb. destruct o as [[]|x].
      - destruct (runHandlePageFunction this eb) as [[[[]|x] eh] lh].
        + destruct (markSessionGood K session eh) as [[om em] lm]. simpl.
          exists (restb ++ lh ++ lm). by rewrite <- app_assoc.
        + simpl. exists (restb ++ lh). by rewrite <- app_assoc.
      - by exists restb. }
    destruct Ht as (restt & ->).
    exists (restt ++ log (closePage K page (store (tryBlock K this page request session e0)))).
    by rewrite <- !app_assoc.
  - assert (Hresp : calls_within no_status_check (_responseHandler K this)).
    { assert (H : forall pg rq, calls_within no_status_check
                    (p <- defined pg;;
                     u <- call (CPageUrl p) (page_url K p);;
                     modify (set_loadedUrl rq u))).
      { intros pg rq. unfold defined. within. }
      intros e'. rewrite (responseHandler_without_pool _ _ Hsp). apply H. }
    assert (Hall : calls_within no_status_check (_handleRequestFunction K this)).
    { unfold _handleRequestFunction.
      apply within_bind;
        [eapply within_weaken; [apply openPage_calls|by intros []]|].
      intros [[page request] session]. apply within_try_finally;
        [|eapply within_weaken; [apply closePage_calls|by intros []]].
      unfold tryBlock, beforeHandler.
      apply within_bind; [|intros _; apply within_bind; [|intros _]].
      - apply within_bind;
          [eapply within_weaken; [apply handleNavigation_calls|by intros []]|intros _].
        apply within_bind; [exact Hresp|intros _].
        destruct (persistCookiesPerSession this); [|apply within_ret].
        eapply within_weaken; [apply saveCookies_calls|by intros []].
      - intros e'. unfold runHandlePageFunction, log.
        by destruct (handlePageFunction this e') as [pr e1].
      - eapply within_weaken; [apply markSessionGood_calls|by intros []]. }
    split.
    + apply (forallb_count no_status_check is_status _ (Hall e)). by intros [].
    + apply (forallb_count no_status_check is_sessionRetire _ (Hall e)). by intros [].
Qed.

(** C4: with [persistCookiesPerSession: true] and [useSessionPool: false] the
    constructor throws; nothing was called before (no [super], no session pool,
    no browser pool: the call log is empty) and the store is untouched.  When
    the options pass the shape validation, the error is the configuration
    error. *)
Theorem constructor_rejects_cookies_without_session_pool options e :
  opt_persistCookiesPerSession options = Some true ->
  opt_useSessionPool options = Some false ->
  exists err,
    constructor K options e = (Throw err, e, []) /\
    (ow K options = None -> err = JsError configurationMessage).
Proof.
  intros Hp Hu. unfold constructor. rewrite Hp, Hu. simpl.
  destruct (ow K options) as [argumentError|].
  - by exists argumentError.
  - by exists (JsError configurationMessage).
Qed.

(** *** Navigation hooks *)

Lemma bind_assoc {A B C} (m : M Ext A) (k : A -> M Ext B) (k' : B -> M Ext C) e :
  bind (bind m k) k' e = bind m (fun a => bind (k a) k') e.
Proof.
  unfold bind. destruct (m e) as [[[a|x] e1] l1]; [|done].
  destruct (k a e1) as [[[b|x] e2] l2]; [|done].
  destruct (k' b e2) as [[o e3] l3]. by rewrite app_assoc.
Qed.

Lemma bind_ext {A B} (m : M Ext A) (k k' : A -> M Ext B) e :
  (forall a e1, k a e1 = k' a e1) -> bind m k e = bind m k' e.
Proof.
  intros Hk. unfold bind. destruct (m e) as [[[a|x] e1] l1]; [|done]. by rewrite Hk.
Qed.

Lemma executeHooks_app (hs1 hs2 : list (Hook Ext)) opts e :
  _executeHooks (hs1 ++ hs2) opts e
  = (_executeHooks hs1 opts;; _executeHooks hs2 opts) e.
Proof.
  revert e. induction hs1 as [|h hs1 IH]; intros e; simpl.
  - unfold bind, ret. by destruct (_executeHooks hs2 opts e) as [[o e2] l2].
  - rewrite bind_assoc. apply bind_ext. intros _ e1. apply IH.
Qed.

Lemma executeHooks_ok_log (hs : list (Hook Ext)) opts e e1 l1 :
  _executeHooks hs opts e = (Ok tt, e1, l1) ->
  l1 = map (fun h => CHook (hook_name h) opts) hs.
Proof.
  revert e l1. induction hs as [|h hs IH]; intros e l1; simpl.
  - by intros [= _ <-].
  - unfold bind at 1, call.
    destruct (hook_run h opts e) as [[[]|x] e2]; [|discriminate].
    destruct (_executeHooks hs opts e2) as [[o e3] l3] eqn:Hrest.
    intros [= -> <- <-]. simpl. f_equal. by apply (IH e2).
Qed.

(** C5: (1) when the hooks registered before [h] have all returned, they were
    called in registration order with the one navigation-options object, [h]
    is called next with the same object on the store they left, and an error
    of [h] ends the run there: no later hook is called; (2) once the
    pre-navigation hooks have returned, the navigation function is called with
    that same object on the store they left, and the post-navigation hooks
    follow with it; (3) an error of a pre-navigation hook ends the navigation
    before the navigation function is called; (4) an error of the navigation
    -- of a hook or of the navigation function -- is the error of the attempt,
    whose handler is not invoked. *)
Theorem navigation_hooks_run_in_order (this : Crawler Ext) :
  (forall (hs1 : list (Hook Ext)) h hs2 opts e e1 l1,
     _executeHooks hs1 opts e = (Ok tt, e1, l1) ->
     l1 = map (fun h' => CHook (hook_name h') opts) hs1 /\
     _executeHooks (hs1 ++ h :: hs2) opts e
     = match hook_run h opts e1 with
       | (Ok _, e2) =>
           let '(o, e3, l3) := _executeHooks hs2 opts e2 in
           (o, e3, l1 ++ CHook (hook_name h) opts :: l3)
       | (Throw x, e2) => (Throw x, e2, l1 ++ [CHook (hook_name h) opts])
       end) /\
  (forall e goto e1 l1,
     gotoFunction this = Some goto ->
     _executeHooks (preNavigationHooks this) (nextObject e)
       (store (clone (gotoOptions this) e)) = (Ok tt, e1, l1) ->
     _handleNavigation this e
     = match goto (nextObject e) e1 with
       | (Ok r, e2) =>
           let '(o, e3, l3) :=
             _executeHooks (postNavigationHooks this) (nextObject e)
               (set_ctx (with_response r) e2) in
           (o, e3, l1 ++ CGotoFunction (nextObject e) :: l3)
       | (Throw x, e2) => (Throw x, e2, l1 ++ [CGotoFunction (nextObject e)])
       end) /\
  (forall e x e1 l1,
     _executeHooks (preNavigationHooks this) (nextObject e)
       (store (clone (gotoOptions this) e)) = (Throw x, e1, l1) ->
     _handleNavigation this e = (Throw x, e1, l1) /\ count is_goto l1 = 0) /\
  (forall e page request session e0 l0 x e1 l1,
     openPage K this e = (Ok (page, request, session), e0, l0) ->
     _handleNavigation this e0 = (Throw x, e1, l1) ->
     outcome (_handleRequestFunction K this e) = Throw x /\
     log (_handleRequestFunction K this e) = l0 ++ l1 ++ log (closePage K page e1) /\
     count is_handlePage (log (_handleRequestFunction K this e)) = 0).
Proof.
  split; [|split; [|split]].
  - intros hs1 h hs2 opts e e1 l1 Hpre. split; [by eapply executeHooks_ok_log|].
    rewrite executeHooks_app. rewrite (bind_ok _ _ _ _ _ _ Hpre). simpl.
    unfold bind, call. destruct (hook_run h opts e1) as [[[]|x] e2]; [|done].
    by destruct (_executeHooks hs2 opts e2) as [[o e3] l3].
  - intros e goto e1 l1 Hgoto Hpre. unfold _handleNavigation, _navigationHandler.
    rewrite Hgoto. unfold bind at 1. unfold clone at 1. unfold store, clone in Hpre.
    simpl in Hpre. unfold bind at 1. rewrite Hpre.
    unfold bind, call, modify. destruct (goto (nextObject e) e1) as [[r|x] e2]; [|done].
    destruct (_executeHooks (postNavigationHooks this) _ _) as [[o e3] l3]. simpl.
    reflexivity.
  - intros e x e1 l1 Hpre. split.
    + unfold _handleNavigation. unfold bind at 1. unfold clone at 1.
      unfold store, clone in Hpre. simpl in Hpre.
      by rewrite (bind_throw _ _ _ _ _ _ Hpre).
    + eapply (forallb_count is_hook is_goto); [|by intros []].
      pose proof (executeHooks_calls (preNavigationHooks this) (nextObject e)
                    (store (clone (gotoOptions this) e))) as Hc.
      by rewrite Hpre in Hc.
  - intros e page request session e0 l0 x e1 l1 Hopen Hnav.
    rewrite (handleRequest_run _ _ _ _ _ _ _ Hopen).
    assert (Hb : beforeHandler K this page request session e0 = (Throw x, e1, l1)).
    { unfold beforeHandler. by rewrite (bind_throw _ _ _ _ _ _ Hnav). }
    rewrite (tryBlock_throws_before_handler _ _ _ _ _ _ _ _ Hb). cbn zeta.
    unfold outcome, log, store. simpl. repeat split. rewrite !count_app.
    rewrite (log_never _ is_handlePage _ _ _ _ _ (openPage_calls this)
               ltac:(by intros []) Hopen).
    rewrite (log_never _ is_handlePage _ _ _ _ _ (handleNavigation_calls this)
               ltac:(by intros []) Hnav).
    pose proof (closePage_calls page e1) as Hclose. unfold log in Hclose.
    by rewrite (forallb_count close_call is_handlePage _ Hclose ltac:(by intros [])).
Qed.

(** *** The launch context *)

(** C9: the launch context's [extend] is additive and a proxy configuration is
    present.  With a session pool, the proxy info is requested for the id of
    the session the pool handed out; without one, for no session id.  The
    proxy url is written into the launch context, and the session (if any)
    and the proxy info reach it through one call of [extend]. *)
Theorem extendLaunchContext_binds_proxy this pageId lc e pc :
  additive_extend K ->
  proxyConfiguration this = Some pc ->
  (forall sp s e1 pi e2,
     sessionPool this = Some sp ->
     getSession K e = (Ok s, e1) ->
     newProxyInfo K (Some (session_id s)) e1 = (Ok pi, e2) ->
     objects e2 lc !! "session" = None ->
     objects e2 lc !! "proxyInfo" = None ->
     outcome (_extendLaunchContext K this pageId lc e) = Ok tt /\
     log (_extendLaunchContext K this pageId lc e)
     = [CGetSession; CNewProxyInfo (Some (session_id s));
        CExtend lc (<["proxyInfo" := VProxyInfo pi]> (<["session" := VSession s]> ∅))] /\
     prop (objects (store (_extendLaunchContext K this pageId lc e)) lc) "proxyUrl"
     = VStr (proxy_url pi) /\
     prop (objects (store (_extendLaunchContext K this pageId lc e)) lc) "proxyInfo"
     = VProxyInfo pi /\
     prop (objects (store (_extendLaunchContext K this pageId lc e)) lc) "session"
     = VSession s) /\
  (forall pi e2,
     sessionPool this = None ->
     newProxyInfo K None e = (Ok pi, e2) ->
     objects e2 lc !! "proxyInfo" = None ->
     outcome (_extendLaunchContext K this pageId lc e) = Ok tt /\
     log (_extendLaunchContext K this pageId lc e)
     = [CNewProxyInfo None; CExtend lc (<["proxyInfo" := VProxyInfo pi]> ∅)] /\
     prop (objects (store (_extendLaunchContext K this pageId lc e)) lc) "proxyUrl"
     = VStr (proxy_url pi) /\
     prop (objects (store (_extendLaunchContext K this pageId lc e)) lc) "proxyInfo"
     = VProxyInfo pi).
Proof.
  intros Hext Hpc. split.
  - intros sp s e1 pi e2 Hsp Hget Hnew Hs Hp.
    unfold _extendLaunchContext. rewrite Hsp, Hpc.
    unfold bind, call, ret, modify, launchContext_extend, session_and_id, prop.
    rewrite Hget. simpl. rewrite lookup_insert_eq. simpl. rewrite Hnew. simpl.
    unfold call. simpl. rewrite fn_lookup_insert. rewrite Hext.
    2:{ apply map_disjoint_insert_l_2; [by rewrite lookup_insert_ne|].
        apply map_disjoint_insert_l_2; [by rewrite lookup_insert_ne|].
        apply map_disjoint_empty_l. }
    unfold outcome, log, store. simpl. rewrite fn_lookup_insert.
    repeat split.
    + rewrite lookup_union_r by by simplify_map_eq. by rewrite lookup_insert_eq.
    + by rewrite (lookup_union_Some_l _ _ _ (VProxyInfo pi)) by by simplify_map_eq.
    + by rewrite (lookup_union_Some_l _ _ _ (VSession s)) by by simplify_map_eq.
  - intros pi e2 Hsp Hnew Hp.
    unfold _extendLaunchContext. rewrite Hsp, Hpc.
    unfold bind, call, ret, modify, launchContext_extend, session_and_id, prop.
    simpl. rewrite lookup_empty. simpl. rewrite Hnew. simpl.
    unfold call. simpl. rewrite fn_lookup_insert. rewrite Hext.
    2:{ apply map_disjoint_insert_l_2; [by rewrite lookup_insert_ne|].
        apply map_disjoint_empty_l. }
    unfold outcome, log, store. simpl. rewrite fn_lookup_insert.
    repeat split.
    + rewrite lookup_union_r by by simplify_map_eq. by rewrite lookup_insert_eq.
    + by rewrite (lookup_union_Some_l _ _ _ (VProxyInfo pi)) by by simplify_map_eq.
Qed.

(** *** The session-retired listener *)

Lemma listener_elsewhere this e session l :
  bound_elsewhere e session l -> listener K this l.2 session e = (Ok tt, e, []).
Proof.
  intros (s' & Hs & Hne). unfold listener, bind, get, session_id_of. simpl.
  rewrite Hs. simpl. rewrite bool_decide_eq_false_2; [done|].
  intros [= Heq]. by apply Hne.
Qed.

Lemma run_listeners_elsewhere this e session ls rest :
  Forall (bound_elsewhere e session) ls ->
  run_listeners K this (ls ++ rest) session e = run_listeners K this rest session e.
Proof.
  induction 1 as [|l ls Hl _ IH]; [done|]. simpl.
  rewrite (bind_ok _ _ _ _ _ _ (listener_elsewhere this e session l Hl)).
  rewrite IH. by destruct (run_listeners K this rest session e) as [[o e1] l1].
Qed.

Lemma listener_matching this e session bc sb :
  additive_extend K ->
  prop (objects e (launchContext bc)) "session" = VSession sb ->
  session_id session = session_id sb ->
  objects e (launchContext bc) !! "sessionRetired" = None ->
  listener K this bc session e
  = ((retireBrowserController K bc (flagged bc e)).1,
     (retireBrowserController K bc (flagged bc e)).2,
     [CExtend (launchContext bc) {["sessionRetired" := VBool true]};
      CRetireBrowserController bc]).
Proof.
  intros Hext Hs Hid Hfresh. unfold listener, bind, get, session_id_of. simpl.
  rewrite Hs. simpl. rewrite bool_decide_eq_true_2 by by rewrite Hid.
  unfold launchContext_extend, call. rewrite Hext.
  2:{ by apply map_disjoint_singleton_l_2. }
  fold (flagged bc e). by destruct (retireBrowserController K bc (flagged bc e)) as [[[]|x] e1].
Qed.

Lemma removeListener_last ls lid bc : removeListener lid (ls ++ [(lid, bc)]) = ls.
Proof.
  unfold removeListener. rewrite rev_app_distr. simpl.
  rewrite bool_decide_eq_true_2 by done. apply rev_involutive.
Qed.

Lemma run_closed_skip bc ls rest (e : Env Ext) :
  Forall (fun l => l.1 <> bc) ls ->
  run_closed bc (ls ++ rest) e = run_closed bc rest e.
Proof.
  induction 1 as [|l ls Hl _ IH]; [done|]. simpl.
  rewrite bool_decide_eq_false_2 by done. unfold bind at 1, ret at 1.
  rewrite IH. by destruct (run_closed bc rest e) as [[o e1] l1].
Qed.

Lemma emit_sessionRetired_run this session e :
  emit_sessionRetired K this session e
  = run_listeners K this (retiredListeners e) session e.
Proof.
  unfold emit_sessionRetired, bind, get.
  by destruct (run_listeners K this (retiredListeners e) session e) as [[o e1] l1].
Qed.

Lemma emit_browserClosed_run bc (e : Env Ext) :
  emit_browserClosed bc e = run_closed bc (closedListeners e) e.
Proof.
  unfold emit_browserClosed, bind, get.
  by destruct (run_closed bc (closedListeners e) e) as [[o e1] l1].
Qed.

Lemma run_listeners_app this ls1 ls2 session e :
  run_listeners K this (ls1 ++ ls2) session e
  = (run_listeners K this ls1 session;; run_listeners K this ls2 session) e.
Proof.
  revert e. induction ls1 as [|l ls1 IH]; intros e; simpl.
  - unfold bind, ret. by destruct (run_listeners K this ls2 session e) as [[o e2] l2].
  - rewrite bind_assoc. apply bind_ext. intros _ e1. apply IH.
Qed.

Lemma listener_other_id this e session bc sb :
  prop (objects e (launchContext bc)) "session" = VSession sb ->
  session_id session <> session_id sb ->
  listener K this bc session e = (Ok tt, e, []).
Proof.
  intros Hs Hne. apply (listener_elsewhere this e session (0, bc)).
  exists sb. split; [exact Hs|]. intros Heq. by apply Hne.
Qed.

(** A listener acts on the browser it was registered for only. *)
Lemma listener_calls this bc session :
  calls_within (acts_on bc) (listener K this bc session).
Proof.
  unfold listener, session_id_of, launchContext_extend.
  apply within_bind; [apply within_get|intros e].
  apply within_bind; [destruct (prop _ _); within|intros bound].
  destruct (bool_decide _); [|apply within_ret].
  apply within_bind; [|intros _]; apply within_call; simpl; by apply bool_decide_eq_true_2.
Qed.

Lemma run_listeners_calls this bc ls session :
  Forall (other_browser bc) ls ->
  calls_within (fun c => negb (acts_on bc c)) (run_listeners K this ls session).
Proof.
  induction 1 as [|l ls Hl _ IH]; simpl; [apply within_ret|].
  apply within_bind; [|intros _; exact IH].
  eapply within_weaken; [apply listener_calls|].
  unfold other_browser in Hl. intros [] Hc; simpl in *; try done.
  - apply bool_decide_eq_true_1 in Hc. subst.
    by rewrite bool_decide_eq_false_2.
  - apply bool_decide_eq_true_1 in Hc. subst.
    rewrite bool_decide_eq_false_2; [done|]. intros Heq. apply Hl. by rewrite Heq.
Qed.

Lemma run_listeners_others this bc ls session e o e1 l :
  Forall (other_browser bc) ls ->
  run_listeners K this ls session e = (o, e1, l) ->
  count (acts_on bc) l = 0 /\ count (is_retireController bc) l = 0.
Proof.
  intros Hls Hrun. pose proof (run_listeners_calls this bc ls session Hls e) as Hc.
  rewrite Hrun in Hc. unfold log in Hc. simpl in Hc. split.
  - apply (forallb_count _ _ _ Hc). intros c. by destruct (acts_on bc c).
  - apply (forallb_count _ _ _ Hc). intros []; simpl; try done.
    by destruct (bool_decide _).
Qed.

Lemma remove_first_skip lid ls rest :
  Forall (fun l : nat * BrowserController => l.1 <> lid) ls ->
  remove_first lid (ls ++ rest) = ls ++ remove_first lid rest.
Proof.
  induction 1 as [|l ls Hl _ IH]; [done|]. simpl.
  rewrite bool_decide_eq_false_2 by done. by rewrite IH.
Qed.

(** [removeListener] takes out the listener wherever it is registered: the
    latest instance of that closure. *)
Lemma removeListener_middle ls1 lid bc ls2 :
  Forall (fun l : nat * BrowserController => l.1 <> lid) ls2 ->
  removeListener lid (ls1 ++ (lid, bc) :: ls2) = ls1 ++ ls2.
Proof.
  intros Hls2. unfold removeListener.
  change (ls1 ++ (lid, bc) :: ls2) with (ls1 ++ [(lid, bc)] ++ ls2).
  rewrite !rev_app_distr. rewrite <- app_assoc.
  rewrite remove_first_skip by (by apply Forall_rev).
  simpl. rewrite bool_decide_eq_true_2 by done.
  by rewrite rev_app_distr, !rev_involutive.
Qed.

Lemma run_closed_others bc ls (e : Env Ext) :
  Forall (fun l => l.1 <> bc) ls -> run_closed bc ls e = (Ok tt, e, []).
Proof.
  intros Hls. rewrite <- (app_nil_r ls). by rewrite run_closed_skip.
Qed.

(** C7: the crawler has a session pool, [launchContext.extend] is additive,
    and the listener for controller [bc] is registered, anywhere among the
    listeners of other controllers: [ls1] were registered before it and
    [ls2] after it, and they run in that order.
    (0) [_maybeAddSessionRetiredListener] registers the listener after those
    there are, together with the browserClosed listener that removes it.
    (1) A retirement event for a session with the id of the session [sb]
    bound to [bc]: once the earlier listeners have returned, [bc]'s launch
    context gets [sessionRetired: true] and [retireBrowserController(bc)] is
    called, and the later listeners follow; as the other listeners belong to
    other browsers, [bc] is retired exactly once by the event.
    (2) An event for a session with another id: [bc]'s listener calls nothing
    and changes nothing, the later listeners start on the store the earlier
    ones left, and nothing acts on [bc]'s browser, whatever the listeners of
    the other browsers do.
    (3) When [bc] emits browserClosed, its listener is removed and the others
    stay; from then on an event reaches the other listeners only and nothing
    acts on [bc]'s browser, also when the event is for [sb]. *)
Theorem session_retired_listener this bc sp sb :
  additive_extend K ->
  sessionPool this = Some sp ->
  (forall pageId e,
     retiredListeners (installed this pageId bc e)
     = retiredListeners e ++ [(nextListener e, bc)] /\
     closedListeners (installed this pageId bc e)
     = closedListeners e ++ [(bc, nextListener e)] /\
     nextListener (installed this pageId bc e) = S (nextListener e) /\
     objects (installed this pageId bc e) = objects e) /\
  (forall ls1 lid ls2 session e e1 l1,
     retiredListeners e = ls1 ++ (lid, bc) :: ls2 ->
     run_listeners K this ls1 session e = (Ok tt, e1, l1) ->
     prop (objects e1 (launchContext bc)) "session" = VSession sb ->
     objects e1 (launchContext bc) !! "sessionRetired" = None ->
     session_id session = session_id sb ->
     prop (objects (flagged bc e1) (launchContext bc)) "sessionRetired" = VBool true /\
     emit_sessionRetired K this session e
     = match retireBrowserController K bc (flagged bc e1) with
       | (Ok _, e2) =>
           let '(o, e3, l3) := run_listeners K this ls2 session e2 in
           (o, e3,
            l1 ++ [CExtend (launchContext bc) {["sessionRetired" := VBool true]};
                   CRetireBrowserController bc] ++ l3)
       | (Throw x, e2) =>
           (Throw x, e2,
            l1 ++ [CExtend (launchContext bc) {["sessionRetired" := VBool true]};
                   CRetireBrowserController bc])
       end /\
     (Forall (other_browser bc) (ls1 ++ ls2) ->
      count (is_retireController bc) (log (emit_sessionRetired K this session e)) = 1)) /\
  (forall ls1 lid ls2 session e e1 l1,
     retiredListeners e = ls1 ++ (lid, bc) :: ls2 ->
     run_listeners K this ls1 session e = (Ok tt, e1, l1) ->
     prop (objects e1 (launchContext bc)) "session" = VSession sb ->
     session_id session <> session_id sb ->
     emit_sessionRetired K this session e
     = (let '(o, e3, l3) := run_listeners K this ls2 session e1 in (o, e3, l1 ++ l3)) /\
     (Forall (other_browser bc) (ls1 ++ ls2) ->
      count (acts_on bc) (log (emit_sessionRetired K this session e)) = 0)) /\
  (forall ls1 lid ls2 cs1 cs2 e,
     retiredListeners e = ls1 ++ (lid, bc) :: ls2 ->
     closedListeners e = cs1 ++ (bc, lid) :: cs2 ->
     Forall (fun l => l.1 <> lid) ls2 ->
     Forall (fun c => c.1 <> bc) (cs1 ++ cs2) ->
     emit_browserClosed bc e
     = (Ok tt, set_listeners (ls1 ++ ls2) (closedListeners e) (nextListener e) e, []) /\
     (forall session,
        emit_sessionRetired K this session (store (emit_browserClosed bc e))
        = run_listeners K this (ls1 ++ ls2) session (store (emit_browserClosed bc e)) /\
        (Forall (other_browser bc) (ls1 ++ ls2) ->
         count (acts_on bc)
           (log (emit_sessionRetired K this session (store (emit_browserClosed bc e))))
         = 0))).
Proof.
  intros Hext Hsp.
  split; [|split; [|split]].
  - intros pageId e. unfold installed, _maybeAddSessionRetiredListener.
    by rewrite Hsp.
  - intros ls1 lid ls2 session e e1 l1 Hls Hrun Hs Hfresh Hid.
    assert (Heq : emit_sessionRetired K this session e
            = match retireBrowserController K bc (flagged bc e1) with
              | (Ok _, e2) =>
                  let '(o, e3, l3) := run_listeners K this ls2 session e2 in
                  (o, e3,
                   l1 ++ [CExtend (launchContext bc) {["sessionRetired" := VBool true]};
                          CRetireBrowserController bc] ++ l3)
              | (Throw x, e2) =>
                  (Throw x, e2,
                   l1 ++ [CExtend (launchContext bc) {["sessionRetired" := VBool true]};
                          CRetireBrowserController bc])
              end).
    { rewrite emit_sessionRetired_run, Hls, run_listeners_app.
      rewrite (bind_ok _ _ _ _ _ _ Hrun).
      cbn [run_listeners snd]. unfold bind.
      rewrite (listener_matching this e1 session bc sb Hext Hs Hid Hfresh).
      destruct (retireBrowserController K bc (flagged bc e1)) as [[[]|x] e2]; [|done].
      cbn [fst snd]. by destruct (run_listeners K this ls2 session e2) as [[o e3] l3]. }
    split; [|split; [exact Heq|]].
    + unfold flagged, prop. simpl. rewrite fn_lookup_insert.
      by rewrite (lookup_union_Some_l _ _ _ (VBool true)) by by simplify_map_eq.
    + intros Hothers. apply Forall_app in Hothers as [Ho1 Ho2].
      destruct (run_listeners_others this bc ls1 session e _ _ _ Ho1 Hrun) as [_ H1].
      rewrite Heq. destruct (retireBrowserController K bc (flagged bc e1)) as [[[]|x] e2].
      * destruct (run_listeners K this ls2 session e2) as [[o e3] l3] eqn:Hrun2.
        destruct (run_listeners_others this bc ls2 session e2 _ _ _ Ho2 Hrun2) as [_ H2].
        unfold log. simpl. rewrite !count_app, H1, !count_cons, H2. simpl.
        by rewrite bool_decide_eq_true_2.
      * unfold log. simpl. rewrite !count_app, H1, !count_cons, count_nil. simpl.
        by rewrite bool_decide_eq_true_2.
  - intros ls1 lid ls2 session e e1 l1 Hls Hrun Hs Hid.
    assert (Heq : emit_sessionRetired K this session e
            = (let '(o, e3, l3) := run_listeners K this ls2 session e1 in (o, e3, l1 ++ l3))).
    { rewrite emit_sessionRetired_run, Hls, run_listeners_app.
      rewrite (bind_ok _ _ _ _ _ _ Hrun).
      cbn [run_listeners snd].
      rewrite (bind_ok _ _ _ _ _ _ (listener_other_id this e1 session bc sb Hs Hid)).
      by destruct (run_listeners K this ls2 session e1) as [[o e3] l3]. }
    split; [exact Heq|].
    intros Hothers. apply Forall_app in Hothers as [Ho1 Ho2].
    destruct (run_listeners_others this bc ls1 session e _ _ _ Ho1 Hrun) as [H1 _].
    rewrite Heq. destruct (run_listeners K this ls2 session e1) as [[o e3] l3] eqn:Hrun2.
    destruct (run_listeners_others this bc ls2 session e1 _ _ _ Ho2 Hrun2) as [H2 _].
    unfold log. simpl. by rewrite count_app, H1, H2.
  - intros ls1 lid ls2 cs1 cs2 e Hls Hcs Hlid Hclosed.
    apply Forall_app in Hclosed as [Hc1 Hc2].
    assert (Heq : emit_browserClosed bc e
            = (Ok tt, set_listeners (ls1 ++ ls2) (closedListeners e) (nextListener e) e, [])).
    { rewrite emit_browserClosed_run, Hcs, run_closed_skip by exact Hc1.
      cbn [run_closed fst snd]. rewrite bool_decide_eq_true_2 by done.
      unfold bind at 1, modify at 1.
      rewrite run_closed_others by exact Hc2.
      rewrite Hls, removeListener_middle by exact Hlid. by rewrite Hcs. }
    split; [exact Heq|]. intros session. rewrite Heq. unfold store. simpl.
    rewrite emit_sessionRetired_run. cbn [retiredListeners set_listeners].
    split; [done|]. intros Hothers.
    destruct (run_listeners K this (ls1 ++ ls2) session _) as [[o e3] l3] eqn:Hrun.
    by destruct (run_listeners_others this bc _ session _ _ _ _ Hothers Hrun) as [H _].
Qed.

(** C1 (where the code departs from it): the page has been acquired and the
    context enhanced, cookie persistence is on, and restoring the session's
    cookies raises [x].  Then the attempt fails with [x] and its call log, which
    ends with the calls of the cookie restore, holds no [page.close]: the page
    is left open. *)
Theorem page_left_open_when_cookie_restore_throws this e page e1 e2 l2 x e3 l3 :
  persistCookiesPerSession this = true ->
  newPage K (id (ctx e)) e = (Ok page, e1) ->
  _enhanceCrawlingContextWithPageInfo K page e1 = (Ok tt, e2, l2) ->
  restoreCookies K page (request (ctx e2)) e2 = (Throw x, e3, l3) ->
  _handleRequestFunction K this e = (Throw x, e3, CNewPage (id (ctx e)) :: l2 ++ l3) /\
  count is_pageClose (CNewPage (id (ctx e)) :: l2 ++ l3) = 0.
Proof.
  intros Hp Hnew Henh Hres.
  assert (Hopen : openPage K this e = (Throw x, e3, CNewPage (id (ctx e)) :: l2 ++ l3)).
  { unfold openPage. rewrite Hp. unfold bind at 1. unfold get at 1.
    unfold bind at 1. unfold call at 1. rewrite Hnew.
    unfold bind at 1. rewrite Henh. unfold bind at 1. unfold get at 1.
    unfold bind at 1. rewrite Hres. simpl. reflexivity. }
  split.
  - unfold _handleRequestFunction. by rewrite (bind_throw _ _ _ _ _ _ Hopen).
  - pose proof (within_never _ is_pageClose _ (openPage_calls this)) as H.
    specialize (H ltac:(by intros []) e). by rewrite Hopen in H.
Qed.

End Properties.

(** ** The properties at concrete attempts *)

Import Examples.

(** C1, at a concrete attempt: cookie persistence is on and the browser rejects
    [setCookies] with "Target closed".  The page was acquired, the attempt
    fails, and [page.close] was never called. *)
Lemma page_left_open_witness :
  outcome (_handleRequestFunction (K0 true 200)
             (crawler0 true (Some 1) [] (Settles 10 (Ok tt))) (env0 withSession))
  = Throw (JsError "Target closed") /\
  log (_handleRequestFunction (K0 true 200)
         (crawler0 true (Some 1) [] (Settles 10 (Ok tt))) (env0 withSession))
  = [CNewPage "attempt-1"; CGetBrowserControllerByPage 7;
     CGetPuppeteerCookies s1 "http://a.test/"; CSetCookies bc1 7 []] /\
  count is_pageClose
    (log (_handleRequestFunction (K0 true 200)
            (crawler0 true (Some 1) [] (Settles 10 (Ok tt))) (env0 withSession))) = 0.
Proof.
  edestruct (page_left_open_when_cookie_restore_throws (K0 true 200)
               (crawler0 true (Some 1) [] (Settles 10 (Ok tt))) (env0 withSession))
    as [Hrun Hcount]; [reflexivity..|].
  rewrite Hrun. repeat split.
Defined.

(** C2, as stated, fails here: cookie persistence is on and the handler raises
    "handler failed"; the attempt fails with that error, and yet the page's
    cookies were read and stored in the session, before the handler ran. *)
Lemma cookies_captured_though_handler_fails :
  persistCookiesPerSession (crawler0 true (Some 1) [] (Settles 10 (Throw (JsError "handler failed"))))
  = true /\
  outcome (_handleRequestFunction (K0 false 200)
             (crawler0 true (Some 1) [] (Settles 10 (Throw (JsError "handler failed"))))
             (env0 withSession))
  = Throw (JsError "handler failed") /\
  log (_handleRequestFunction (K0 false 200)
         (crawler0 true (Some 1) [] (Settles 10 (Throw (JsError "handler failed"))))
         (env0 withSession))
  = [CNewPage "attempt-1"; CGetBrowserControllerByPage 7;
     CGetPuppeteerCookies s1 "http://a.test/"; CSetCookies bc1 7 [];
     CGotoFunction 1; CStatus 0; CPageUrl 7;
     CGetCookies bc1 7;
     CSetPuppeteerCookies s1 [("k", "v")] (Some "http://a.test/redirected");
     CHandlePageFunction; CPageClose 7].
Proof. repeat split. Qed.

(** C2, as amended, at the same attempt: the cookies the browser answered,
    [k=v], are stored in session [s1] under the url the page was redirected
    to, and the handler is invoked next. *)
Lemma cookies_captured_before_handler_witness :
  exists page request session e0 l0 e1 l1 e2 l2 bc cookies e2' s e3 after,
    openPage (K0 false 200)
      (crawler0 true (Some 1) [] (Settles 10 (Throw (JsError "handler failed"))))
      (env0 withSession) = (Ok (page, request, session), e0, l0) /\
    _handleNavigation
      (crawler0 true (Some 1) [] (Settles 10 (Throw (JsError "handler failed")))) e0
    = (Ok tt, e1, l1) /\
    _responseHandler (K0 false 200)
      (crawler0 true (Some 1) [] (Settles 10 (Throw (JsError "handler failed")))) e1
    = (Ok tt, e2, l2) /\
    browserController (ctx e2) = Some bc /\
    getCookies (K0 false 200) bc page e2 = (Ok cookies, e2') /\
    session = VSession s /\
    setPuppeteerCookies (K0 false 200) s cookies (loadedUrl (requests e2' request)) e2'
    = (Ok tt, e3) /\
    [CNewPage "attempt-1"; CGetBrowserControllerByPage 7;
     CGetPuppeteerCookies s1 "http://a.test/"; CSetCookies bc1 7 [];
     CGotoFunction 1; CStatus 0; CPageUrl 7;
     CGetCookies bc1 7;
     CSetPuppeteerCookies s1 [("k", "v")] (Some "http://a.test/redirected");
     CHandlePageFunction; CPageClose 7]
    = (l0 ++ l1 ++ l2)
        ++ [CGetCookies bc page;
            CSetPuppeteerCookies s cookies (loadedUrl (requests e2' request));
            CHandlePageFunction]
        ++ after /\
    count save_call (l0 ++ l1 ++ l2) = 0 /\ count is_handlePage (l0 ++ l1 ++ l2) = 0 /\
    count save_call after = 0 /\ count is_handlePage after = 0.
Proof.
  apply (cookies_captured_before_handler (K0 false 200)
           (crawler0 true (Some 1) [] (Settles 10 (Throw (JsError "handler failed"))))
           (env0 withSession)); reflexivity.
Defined.

(** C3, as stated, fails here: the crawler has no session pool, the navigation
    function returns a response with a [status] accessor, the status is 403
    and 403 is in the blocked set; no session is retired, the handler is
    invoked and the attempt succeeds. *)
Lemma blocked_status_ignored_without_session_pool :
  gotoFunction (crawler0 false None [] (Settles 10 (Ok tt))) = Some (fun _ e => (Ok (StatusResponse 0), e)) /\
  status (K0 false 403) 0 (env0 ∅) = (Ok 403%Z, env0 ∅) /\
  bool_decide (403%Z ∈ blockedStatusCodes (K0 false 403)) = true /\
  outcome (_handleRequestFunction (K0 false 403)
             (crawler0 false None [] (Settles 10 (Ok tt))) (env0 ∅)) = Ok tt /\
  log (_handleRequestFunction (K0 false 403)
             (crawler0 false None [] (Settles 10 (Ok tt))) (env0 ∅))
  = [CNewPage "attempt-1"; CGetBrowserControllerByPage 7; CGotoFunction 1; CPageUrl 7;
     CHandlePageFunction; CPageClose 7].
Proof. repeat split. Qed.

(** C3, as amended, at a crawler with a session pool. *)
Lemma blocked_status_retires_session_witness :
  outcome (_handleRequestFunction (K0 false 403)
             (crawler0 true (Some 1) [] (Settles 10 (Ok tt))) (env0 withSession))
  = Throw (JsError "Request blocked - received 403 status code.") /\
  log (_handleRequestFunction (K0 false 403)
             (crawler0 true (Some 1) [] (Settles 10 (Ok tt))) (env0 withSession))
  = [CNewPage "attempt-1"; CGetBrowserControllerByPage 7;
     CGetPuppeteerCookies s1 "http://a.test/"; CSetCookies bc1 7 [];
     CGotoFunction 1; CStatus 0; CSessionRetire s1; CPageClose 7].
Proof.
  edestruct (blocked_status_retires_session (K0 false 403)
               (crawler0 true (Some 1) [] (Settles 10 (Ok tt))) (env0 withSession))
    as (Hout & Hlog & _);
    [reflexivity|reflexivity|reflexivity|reflexivity|reflexivity
    |apply list_elem_of_In; simpl; auto|reflexivity|].
  rewrite Hout, Hlog. split; reflexivity.
Defined.

(** C4, at concrete options. *)
Lemma constructor_rejects_witness :
  exists err,
    constructor (K0 false 200) conflictingOptions (env0 ∅) = (Throw err, env0 ∅, []) /\
    (ow (K0 false 200) conflictingOptions = None -> err = JsError configurationMessage).
Proof.
  apply (constructor_rejects_cookies_without_session_pool (K0 false 200)
           conflictingOptions (env0 ∅)); reflexivity.
Defined.

(** C5, at a concrete crawler: hook A sets a header in the navigation options,
    hook B and the navigation function find it there. *)
Lemma navigation_hooks_witness :
  outcome (_handleNavigation crawlerAB (env0 withSession)) = Ok tt /\
  log (_handleNavigation crawlerAB (env0 withSession))
  = [CHook "A" 1; CHook "B" 1; CGotoFunction 1] /\
  prop (objects (store (_handleNavigation crawlerAB (env0 withSession))) 1) "header" = VNum 1.
Proof.
  rewrite (proj1 (proj2 (navigation_hooks_run_in_order (K0 false 200) crawlerAB))
             (env0 withSession) gotoAB _ _ eq_refl eq_refl).
  repeat split.
Defined.

(** C6, at a concrete attempt: the timeout is configured as 50.6534 seconds
    and the handler takes a minute.  The attempt fails with the timeout error
    and the session is not marked good, but the message speaks of
    50.65339999999999 seconds: it does not include the configured 50.6534.
    (For the default of 60 seconds, and for 1.5 seconds, the message gives the
    configured number.) *)
Lemma handler_timeout_witness :
  constructor (K0 false 200) fractionalOptions (env0 ∅)
  = (Ok fractionalCrawler, env0 ∅,
     [CSuper (50.6534 * 10); CNewSessionPool; CSetMaxListeners 20; CNewBrowserPool]) /\
  outcome (_handleRequestFunction (K0 false 200) fractionalCrawler (env0 withSession))
  = Throw (JsError "handlePageFunction timed out after 50.65339999999999 seconds.") /\
  Number_toString 50.6534 = "50.6534" /\
  includes "handlePageFunction timed out after 50.65339999999999 seconds."
    (Number_toString 50.6534) = false /\
  count is_markGood
    (log (_handleRequestFunction (K0 false 200) fractionalCrawler (env0 withSession))) = 0 /\
  timeoutMessage (60 * 1000) = "handlePageFunction timed out after 60 seconds." /\
  timeoutMessage (1.5 * 1000) = "handlePageFunction timed out after 1.5 seconds.".
Proof.
  edestruct (handler_timeout_fails_attempt (K0 false 200) fractionalOptions (env0 ∅)
               fractionalCrawler (env0 ∅)
               [CSuper (50.6534 * 10); CNewSessionPool; CSetMaxListeners 20; CNewBrowserPool]
               (env0 withSession))
    as (Hout & _ & Hmark & _); [reflexivity..|].
  rewrite Hout, Hmark. repeat split; vm_compute; reflexivity.
Defined.

(** The example launch context merges the new fields in. *)
Lemma additive_extend_K0 b st : additive_extend (K0 b st).
Proof. intros o fields _. reflexivity. Defined.

(** C7, at the older of two registered controllers, [bc1]: an event for its
    session [s1] retires it once and leaves [bc2] alone; an event for [s2]
    retires [bc2] and does nothing to [bc1]; once [bc1] has closed, only the
    listener of [bc2] is left and an event for [s1] does nothing. *)
Lemma session_retired_listener_witness :
  retiredListeners MoreExamples.twoBrowsers = [(0, bc1); (1, MoreExamples.bc2)] /\
  log (emit_sessionRetired (K0 false 200) (crawler0 true (Some 1) [] (Settles 10 (Ok tt))) s1
         MoreExamples.twoBrowsers)
  = [CExtend 0 {["sessionRetired" := VBool true]}; CRetireBrowserController bc1] /\
  count (is_retireController bc1)
    (log (emit_sessionRetired (K0 false 200)
            (crawler0 true (Some 1) [] (Settles 10 (Ok tt))) s1
            MoreExamples.twoBrowsers)) = 1 /\
  log (emit_sessionRetired (K0 false 200) (crawler0 true (Some 1) [] (Settles 10 (Ok tt))) s2
         MoreExamples.twoBrowsers)
  = [CExtend 5 {["sessionRetired" := VBool true]};
     CRetireBrowserController MoreExamples.bc2] /\
  count (acts_on bc1)
    (log (emit_sessionRetired (K0 false 200)
            (crawler0 true (Some 1) [] (Settles 10 (Ok tt))) s2
            MoreExamples.twoBrowsers)) = 0 /\
  retiredListeners (store (emit_browserClosed bc1 MoreExamples.twoBrowsers))
  = [(1, MoreExamples.bc2)] /\
  log (emit_sessionRetired (K0 false 200) (crawler0 true (Some 1) [] (Settles 10 (Ok tt))) s1
         (store (emit_browserClosed bc1 MoreExamples.twoBrowsers)))
  = [].
Proof.
  assert (Hother : Forall (other_browser bc1) ([] ++ [(1, MoreExamples.bc2)])).
  { repeat constructor. unfold other_browser. simpl. discriminate. }
  destruct (session_retired_listener (K0 false 200)
              (crawler0 true (Some 1) [] (Settles 10 (Ok tt))) bc1 1 s1
              (additive_extend_K0 false 200) eq_refl) as (_ & Hmatch & Hmiss & Hclosed).
  destruct (Hmatch [] 0 [(1, MoreExamples.bc2)] s1
              MoreExamples.twoBrowsers MoreExamples.twoBrowsers [])
    as (_ & Hrun1 & Honce); [reflexivity..|].
  destruct (Hmiss [] 0 [(1, MoreExamples.bc2)] s2
              MoreExamples.twoBrowsers MoreExamples.twoBrowsers [])
    as (Hrun2 & Hnone); [reflexivity|reflexivity|reflexivity|discriminate|].
  destruct (Hclosed [] 0 [(1, MoreExamples.bc2)] [] [(MoreExamples.bc2, 1)]
              MoreExamples.twoBrowsers)
    as (Hgone & Hafter);
    [reflexivity|reflexivity|repeat constructor; simpl; discriminate
    |repeat constructor; simpl; discriminate|].
  destruct (Hafter s1) as (Hrun3 & _).
  split; [reflexivity|]. split; [by rewrite Hrun1|]. split; [exact (Honce Hother)|].
  split; [by rewrite Hrun2|]. split; [exact (Hnone Hother)|].
  split; [by rewrite Hgone|]. by rewrite Hrun3.
Defined.

(** C8, as stated, fails here: navigation goes through, the response is
    blocked (status 403, session pool on), and [request.loadedUrl] is still
    unset when the attempt ends. *)
Lemma loadedUrl_unset_when_blocked :
  outcome (_handleNavigation (crawler0 true (Some 1) [] (Settles 10 (Ok tt)))
             (store (openPage (K0 false 403)
                       (crawler0 true (Some 1) [] (Settles 10 (Ok tt))) (env0 withSession))))
  = Ok tt /\
  outcome (_handleRequestFunction (K0 false 403)
             (crawler0 true (Some 1) [] (Settles 10 (Ok tt))) (env0 withSession))
  = Throw (JsError "Request blocked - received 403 status code.") /\
  loadedUrl (requests (store (_handleRequestFunction (K0 false 403)
                                (crawler0 true (Some 1) [] (Settles 10 (Ok tt)))
                                (env0 withSession))) 0) = None.
Proof. repeat split. Qed.

(** C8, as amended, at an attempt whose response is not blocked. *)
Lemma loadedUrl_set_from_page_url_witness :
  exists p u e1' e2' l2',
    page (ctx (store (_handleNavigation (crawler0 true (Some 1) [] (Settles 10 (Ok tt)))
                        (store (openPage (K0 false 200)
                                  (crawler0 true (Some 1) [] (Settles 10 (Ok tt)))
                                  (env0 withSession)))))) = Some p /\
    page_url (K0 false 200) p e1' = (Ok u, e2') /\
    [CStatus 0; CPageUrl 7] = l2' ++ [CPageUrl p] /\
    store (_responseHandler (K0 false 200) (crawler0 true (Some 1) [] (Settles 10 (Ok tt)))
             (store (_handleNavigation (crawler0 true (Some 1) [] (Settles 10 (Ok tt)))
                       (store (openPage (K0 false 200)
                                 (crawler0 true (Some 1) [] (Settles 10 (Ok tt)))
                                 (env0 withSession))))))
    = set_loadedUrl 0 u e2' /\
    loadedUrl (requests
      (store (_responseHandler (K0 false 200) (crawler0 true (Some 1) [] (Settles 10 (Ok tt)))
             (store (_handleNavigation (crawler0 true (Some 1) [] (Settles 10 (Ok tt)))
                       (store (openPage (K0 false 200)
                                 (crawler0 true (Some 1) [] (Settles 10 (Ok tt)))
                                 (env0 withSession))))))) 0) = Some u.
Proof.
  eapply (loadedUrl_set_from_page_url (K0 false 200)
            (crawler0 true (Some 1) [] (Settles 10 (Ok tt)))
            (store (openPage (K0 false 200)
                      (crawler0 true (Some 1) [] (Settles 10 (Ok tt))) (env0 withSession))));
    reflexivity.
Defined.

(** C9, at concrete crawlers with and without a session pool. *)
Lemma extendLaunchContext_witness :
  log (_extendLaunchContext (K0 false 200) (crawlerProxy (Some 1)) "page-1" 0 (env0 ∅))
  = [CGetSession; CNewProxyInfo (Some "s1");
     CExtend 0 (<["proxyInfo" := VProxyInfo {| proxy_url := "http://proxy.test:8000";
                                               proxy_sessionId := Some "s1" |}]>
                  (<["session" := VSession s1]> ∅))] /\
  prop (objects (store (_extendLaunchContext (K0 false 200) (crawlerProxy (Some 1))
                          "page-1" 0 (env0 ∅))) 0) "proxyUrl"
  = VStr "http://proxy.test:8000" /\
  log (_extendLaunchContext (K0 false 200) (crawlerProxy None) "page-1" 0 (env0 ∅))
  = [CNewProxyInfo None;
     CExtend 0 (<["proxyInfo" := VProxyInfo {| proxy_url := "http://proxy.test:8000";
                                               proxy_sessionId := None |}]> ∅)].
Proof.
  destruct (extendLaunchContext_binds_proxy (K0 false 200) (crawlerProxy (Some 1)) "page-1" 0
              (env0 ∅) 3 (additive_extend_K0 false 200) eq_refl) as [Hwith _].
  destruct (extendLaunchContext_binds_proxy (K0 false 200) (crawlerProxy None) "page-1" 0
              (env0 ∅) 3 (additive_extend_K0 false 200) eq_refl) as [_ Hwithout].
  destruct (Hwith 1 s1 (env0 ∅) _ (env0 ∅) eq_refl eq_refl eq_refl eq_refl eq_refl)
    as (_ & Hlog & Hurl & _).
  destruct (Hwithout _ (env0 ∅) eq_refl eq_refl eq_refl) as (_ & Hlog' & _).
  rewrite Hlog, Hurl, Hlog'. repeat split.
Defined.

(** C10, at a concrete crawler without a session pool whose navigation
    function returns a response with status 403, a blocked status: the
    response handler only asks the page for its url and records it, the
    attempt succeeds, and no status was read and no session retired. *)
Lemma no_blocked_check_witness :
  response (ctx (store (_handleNavigation (crawler0 false None [] (Settles 10 (Ok tt)))
                          (store (openPage (K0 false 403)
                                    (crawler0 false None [] (Settles 10 (Ok tt)))
                                    (env0 ∅))))))
  = StatusResponse 0 /\
  status (K0 false 403) 0 (env0 ∅) = (Ok 403%Z, env0 ∅) /\
  _responseHandler (K0 false 403) (crawler0 false None [] (Settles 10 (Ok tt)))
    (store (_handleNavigation (crawler0 false None [] (Settles 10 (Ok tt)))
              (store (openPage (K0 false 403)
                        (crawler0 false None [] (Settles 10 (Ok tt))) (env0 ∅)))))
  = (Ok tt,
     set_loadedUrl 0 "http://a.test/redirected"
       (store (_handleNavigation (crawler0 false None [] (Settles 10 (Ok tt)))
                 (store (openPage (K0 false 403)
                           (crawler0 false None [] (Settles 10 (Ok tt))) (env0 ∅))))),
     [CPageUrl 7]) /\
  requests (store (_responseHandler (K0 false 403)
                     (crawler0 false None [] (Settles 10 (Ok tt)))
                     (store (_handleNavigation (crawler0 false None [] (Settles 10 (Ok tt)))
                               (store (openPage (K0 false 403)
                                         (crawler0 false None [] (Settles 10 (Ok tt)))
                                         (env0 ∅))))))) 0
  = {| url := "http://a.test/"; loadedUrl := Some "http://a.test/redirected" |} /\
  (exists rest,
     log (_handleRequestFunction (K0 false 403)
            (crawler0 false None [] (Settles 10 (Ok tt))) (env0 ∅))
     = [CNewPage "attempt-1"; CGetBrowserControllerByPage 7] ++ [CGotoFunction 1]
       ++ CPageUrl 7 :: rest) /\
  count is_status (log (_handleRequestFunction (K0 false 403)
                          (crawler0 false None [] (Settles 10 (Ok tt))) (env0 ∅))) = 0 /\
  count is_sessionRetire (log (_handleRequestFunction (K0 false 403)
                          (crawler0 false None [] (Settles 10 (Ok tt))) (env0 ∅))) = 0.
Proof.
  destruct (no_blocked_check_without_session_pool (K0 false 403)
              (crawler0 false None [] (Settles 10 (Ok tt))) (env0 ∅) eq_refl)
    as (Hhandler & Hattempt & Hstatus & Hretire).
  destruct (Hhandler
              (store (_handleNavigation (crawler0 false None [] (Settles 10 (Ok tt)))
                        (store (openPage (K0 false 403)
                                  (crawler0 false None [] (Settles 10 (Ok tt)))
                                  (env0 ∅))))) 7 eq_refl)
    as (_ & Hanswer & _).
  destruct (Hanswer "http://a.test/redirected" _ eq_refl) as (_ & Hrecorded & _).
  split; [reflexivity|]. split; [reflexivity|]. split; [reflexivity|].
  split; [exact Hrecorded|]. split; [|split; [exact Hstatus|exact Hretire]].
  eapply Hattempt; reflexivity.
Defined.

(** ** Further properties of the crawler's code *)

Section MoreProperties.

Context {Ext : Type} (K : Collaborators Ext).

Ltac calls_step :=
  first
    [ apply within_ret | apply within_throw | apply within_get | apply within_modify
    | apply within_call; reflexivity
    | apply within_bind; [|intros ?]
    | apply within_try_catch; [|intros ?]
    | match goal with
      | |- calls_within _ (match ?x with _ => _ end) => destruct x
      end ].
Ltac calls := repeat calls_step.

(** *** The attempt as a whole *)

Lemma runHandlePageFunction_calls (this : Crawler Ext) :
  calls_within is_handlePage (runHandlePageFunction this).
Proof.
  intros e. unfold runHandlePageFunction, log.
  by destruct (handlePageFunction this e) as [pr e1].
Qed.

Lemma openPage_throws this e x e0 l0 :
  openPage K this e = (Throw x, e0, l0) ->
  _handleRequestFunction K this e = (Throw x, e0, l0).
Proof. intros H. unfold _handleRequestFunction. by rewrite (bind_throw _ _ _ _ _ _ H). Qed.

(** X1: [page.close] is called at most once per attempt, and exactly once when
    the lines before the [try] (page acquisition, context enhancement, cookie
    restore) have completed; when one of them raises it is not called. *)
Theorem page_closed_iff_page_opened this e :
  count is_pageClose (log (_handleRequestFunction K this e))
  = match outcome (openPage K this e) with Ok _ => 1 | Throw _ => 0 end.
Proof.
  destruct (openPage K this e) as [[[opened|x] e0] l0] eqn:Hopen; unfold outcome; simpl.
  - by apply (handleRequest_closes_once K this e opened e0 l0).
  - rewrite (openPage_throws _ _ _ _ _ Hopen). unfold log. simpl.
    by apply (log_never open_call is_pageClose _ _ _ _ _ (openPage_calls K this)
                ltac:(by intros []) Hopen).
Qed.

(** X2: an error of [page.close] is logged and dropped: the attempt ends as its
    [try] block did. *)
Theorem close_error_is_logged_not_raised this e page request session e0 l0 x e' :
  openPage K this e = (Ok (page, request, session), e0, l0) ->
  page_close K page (store (tryBlock K this page request session e0)) = (Throw x, e') ->
  _handleRequestFunction K this e
  = (outcome (tryBlock K this page request session e0), e',
     l0 ++ log (tryBlock K this page request session e0)
        ++ [CPageClose page; CLogDebug "Error while closing page"]).
Proof.
  intros Hopen Hclose. rewrite (handleRequest_run K _ _ _ _ _ _ _ Hopen). cbn zeta.
  unfold closePage, try_catch, call, log_debug. rewrite Hclose. reflexivity.
Qed.

(** X3: when an attempt succeeds, the lines before the [try] had completed, the
    handler was invoked exactly once, [session.markGood] was called once if
    the context held a session (a truthy value) and not at all otherwise, and
    [page.close] was called once. *)
Theorem successful_attempt this e :
  outcome (_handleRequestFunction K this e) = Ok tt ->
  exists page request session e0 l0,
    openPage K this e = (Ok (page, request, session), e0, l0) /\
    count is_handlePage (log (_handleRequestFunction K this e)) = 1 /\
    count is_markGood (log (_handleRequestFunction K this e))
    = (if truthy session then 1 else 0) /\
    count is_pageClose (log (_handleRequestFunction K this e)) = 1.
Proof.
  intros Hok.
  destruct (openPage K this e) as [[[[[page request] session]|x] e0] l0] eqn:Hopen.
  2:{ by rewrite (openPage_throws _ _ _ _ _ Hopen) in Hok. }
  exists page, request, session, e0, l0. split; [done|].
  rewrite (handleRequest_run K _ _ _ _ _ _ _ Hopen) in *. cbn zeta in *.
  unfold outcome at 1 in Hok. simpl in Hok.
  pose proof (log_never open_call is_handlePage _ _ _ _ _ (openPage_calls K this)
                ltac:(by intros []) Hopen) as H0h.
  pose proof (log_never open_call is_markGood _ _ _ _ _ (openPage_calls K this)
                ltac:(by intros []) Hopen) as H0m.
  pose proof (log_never open_call is_pageClose _ _ _ _ _ (openPage_calls K this)
                ltac:(by intros []) Hopen) as H0c.
  destruct (beforeHandler K this page request session e0) as [[[[]|x] e3] l3] eqn:Hb.
  2:{ by rewrite (tryBlock_throws_before_handler K _ _ _ _ _ _ _ _ Hb) in Hok. }
  pose proof (log_never _ is_handlePage _ _ _ _ _ (beforeHandler_calls K this page request session)
                ltac:(by intros []) Hb) as H3h.
  pose proof (log_never _ is_markGood _ _ _ _ _ (beforeHandler_calls K this page request session)
                ltac:(by intros []) Hb) as H3m.
  pose proof (log_never _ is_pageClose _ _ _ _ _ (beforeHandler_calls K this page request session)
                ltac:(by intros []) Hb) as H3c.
  rewrite (tryBlock_reaches_handler K _ _ _ _ _ _ _ Hb) in *.
  destruct (handlePageFunction this e3) as [promise e4].
  destruct (addTimeoutToPromise _ _ _) as [[]|x]; [|discriminate].
  assert (Hclose : forall e', count is_handlePage (closePage K page e').2 = 0
                              /\ count is_markGood (closePage K page e').2 = 0
                              /\ count is_pageClose (closePage K page e').2 = 1).
  { intros e'. pose proof (closePage_calls K page e') as Hc. unfold log in Hc.
    repeat split.
    - by apply (forallb_count close_call is_handlePage _ Hc); intros [].
    - by apply (forallb_count close_call is_markGood _ Hc); intros [].
    - by destruct (closePage_returns K page e') as [_ ?]. }
  unfold markSessionGood in *.
  destruct (truthy session) eqn:Ht.
  - destruct session as [| | | |s|]; try discriminate.
    unfold as_session, bind, ret, call in *.
    destruct (markGood K s e4) as [[[]|x] e5]; [|discriminate].
    destruct (Hclose e5) as (Hch & Hcm & Hcc).
    unfold log, store. simpl. rewrite !count_app, !count_cons, count_nil. simpl.
    rewrite ?count_nil, H0h, H0m, H0c, H3h, H3m, H3c, Hch, Hcm, Hcc. done.
  - destruct (Hclose e4) as (Hch & Hcm & Hcc).
    unfold ret, log, store. simpl. rewrite !count_app, !count_cons, count_nil. simpl.
    rewrite ?count_nil, H0h, H0m, H0c, H3h, H3m, H3c, Hch, Hcm, Hcc. done.
Qed.

(** X4: an error of the handler -- its own or the timeout's -- is the error of
    the attempt: [session.markGood] is not called, and the page is closed. *)
Theorem handler_error_fails_attempt this e page request session e0 l0 e3 l3 x :
  openPage K this e = (Ok (page, request, session), e0, l0) ->
  beforeHandler K this page request session e0 = (Ok tt, e3, l3) ->
  outcome (runHandlePageFunction this e3) = Throw x ->
  outcome (_handleRequestFunction K this e) = Throw x /\
  log (_handleRequestFunction K this e)
  = l0 ++ (l3 ++ [CHandlePageFunction])
       ++ log (closePage K page (store (runHandlePageFunction this e3))) /\
  count is_markGood (log (_handleRequestFunction K this e)) = 0 /\
  count is_pageClose (log (_handleRequestFunction K this e)) = 1.
Proof.
  intros Hopen Hb Hh.
  rewrite (handleRequest_run K _ _ _ _ _ _ _ Hopen).
  rewrite (tryBlock_reaches_handler K _ _ _ _ _ _ _ Hb).
  unfold runHandlePageFunction, outcome, store in Hh |- *.
  destruct (handlePageFunction this e3) as [promise e4]. simpl in Hh. rewrite Hh.
  cbn zeta. unfold log, store. simpl.
  pose proof (closePage_calls K page e4) as Hc. unfold log in Hc.
  destruct (closePage_returns K page e4) as [_ Hone]. unfold log in Hone.
  repeat split.
  - rewrite !count_app, count_cons, count_nil. simpl.
    rewrite (log_never open_call is_markGood _ _ _ _ _ (openPage_calls K this)
               ltac:(by intros []) Hopen).
    rewrite (log_never _ is_markGood _ _ _ _ _ (beforeHandler_calls K this page request session)
               ltac:(by intros []) Hb).
    by rewrite (forallb_count close_call is_markGood _ Hc ltac:(by intros [])).
  - rewrite !count_app, count_cons, count_nil. simpl.
    rewrite (log_never open_call is_pageClose _ _ _ _ _ (openPage_calls K this)
               ltac:(by intros []) Hopen).
    rewrite (log_never _ is_pageClose _ _ _ _ _ (beforeHandler_calls K this page request session)
               ltac:(by intros []) Hb).
    by rewrite Hone.
Qed.

(** X5: without a navigation function the pre-navigation hooks still run, all
    of them; then the navigation fails with the error of [_navigationHandler],
    which is the error of the attempt.  No post-navigation hook runs, the
    handler is not invoked, the page is closed. *)
Theorem missing_gotoFunction_fails_after_hooks this e page request session e0 l0 e1 l1 :
  gotoFunction this = None ->
  openPage K this e = (Ok (page, request, session), e0, l0) ->
  _executeHooks (preNavigationHooks this) (nextObject e0)
    (store (clone (gotoOptions this) e0)) = (Ok tt, e1, l1) ->
  outcome (_handleRequestFunction K this e)
  = Throw (JsError "BrowserCrawler: You must specify a gotoFunction!") /\
  log (_handleRequestFunction K this e)
  = l0 ++ map (fun h => CHook (hook_name h) (nextObject e0)) (preNavigationHooks this)
       ++ log (closePage K page e1) /\
  count is_handlePage (log (_handleRequestFunction K this e)) = 0 /\
  count is_pageClose (log (_handleRequestFunction K this e)) = 1.
Proof.
  intros Hgoto Hopen Hpre.
  assert (Hnav : _handleNavigation this e0
                 = (Throw (JsError "BrowserCrawler: You must specify a gotoFunction!"),
                    e1, l1)).
  { unfold _handleNavigation, _navigationHandler. rewrite Hgoto.
    unfold bind at 1. unfold clone at 1. unfold store, clone in Hpre. simpl in Hpre.
    rewrite (bind_ok _ _ _ _ _ _ Hpre). unfold bind, throw. simpl.
    by rewrite app_nil_r. }
  assert (Hb : beforeHandler K this page request session e0
               = (Throw (JsError "BrowserCrawler: You must specify a gotoFunction!"),
                  e1, l1)).
  { unfold beforeHandler. by rewrite (bind_throw _ _ _ _ _ _ Hnav). }
  rewrite (handleRequest_run K _ _ _ _ _ _ _ Hopen).
  rewrite (tryBlock_throws_before_handler K _ _ _ _ _ _ _ _ Hb). cbn zeta.
  unfold outcome, log, store. simpl.
  pose proof (closePage_calls K page e1) as Hc. unfold log in Hc.
  destruct (closePage_returns K page e1) as [_ Hone]. unfold log in Hone.
  pose proof (executeHooks_ok_log _ _ _ _ _ Hpre) as Hl1.
  repeat split.
  - by rewrite Hl1.
  - rewrite !count_app.
    rewrite (log_never open_call is_handlePage _ _ _ _ _ (openPage_calls K this)
               ltac:(by intros []) Hopen).
    rewrite (log_never _ is_handlePage _ _ _ _ _ (handleNavigation_calls this)
               ltac:(by intros []) Hnav).
    by rewrite (forallb_count close_call is_handlePage _ Hc ltac:(by intros [])).
  - rewrite !count_app.
    rewrite (log_never open_call is_pageClose _ _ _ _ _ (openPage_calls K this)
               ltac:(by intros []) Hopen).
    rewrite (log_never _ is_pageClose _ _ _ _ _ (handleNavigation_calls this)
               ltac:(by intros []) Hnav).
    by rewrite Hone.
Qed.

(** The calls of an attempt that does not persist cookies. *)
Lemma attempt_calls_without_persistence this :
  persistCookiesPerSession this = false ->
  calls_within (fun c => negb (cookie_call c)) (_handleRequestFunction K this).
Proof.
  intros Hp. unfold _handleRequestFunction.
  apply within_bind.
  { unfold openPage, _enhanceCrawlingContextWithPageInfo, defined. rewrite Hp. calls. }
  intros [[page request] session]. apply within_try_finally;
    [|eapply within_weaken; [apply closePage_calls|by intros []]].
  unfold tryBlock, beforeHandler. rewrite Hp.
  apply within_bind; [|intros _; apply within_bind; [|intros _]].
  - apply within_bind;
      [eapply within_weaken; [apply handleNavigation_calls|by intros []]|intros _].
    apply within_bind; [|intros _; apply within_ret].
    eapply within_weaken; [apply responseHandler_calls|by intros []].
  - eapply within_weaken; [apply runHandlePageFunction_calls|by intros []].
  - eapply within_weaken; [apply markSessionGood_calls|by intros []].
Qed.

(** X6: with cookie persistence off, an attempt neither reads nor writes
    cookies, on the session or on the page. *)
Theorem no_cookie_calls_without_persistence this e :
  persistCookiesPerSession this = false ->
  count cookie_call (log (_handleRequestFunction K this e)) = 0.
Proof.
  intros Hp.
  apply (forallb_count _ cookie_call _ (attempt_calls_without_persistence this Hp e)).
  intros c. by destruct (cookie_call c).
Qed.

(** X7: when the browser pool knows no controller for the new page, the
    attempt fails with a [TypeError] right after the lookup: the context has
    the page but no controller, and the page is not closed. *)
Theorem attempt_fails_without_controller this e page e1 :
  newPage K (id (ctx e)) e = (Ok page, e1) ->
  getBrowserControllerByPage K page (set_ctx (with_page (Some page)) e1) = None ->
  _handleRequestFunction K this e
  = (Throw TypeError,
     set_ctx (with_browserController None) (set_ctx (with_page (Some page)) e1),
     [CNewPage (id (ctx e)); CGetBrowserControllerByPage page]).
Proof.
  intros Hnew Hbc. apply openPage_throws.
  unfold openPage. unfold bind at 1, get at 1. unfold bind at 1, call at 1.
  rewrite Hnew. unfold _enhanceCrawlingContextWithPageInfo.
  unfold bind, modify, call, defined, throw. simpl. rewrite Hbc. reflexivity.
Qed.

(** *** Response handling *)

(** X8: a response that has no [status] function is reported to the debug log
    when there is a session pool, and a missing response is passed over
    silently; in both cases no status is read and no session is retired, and
    [request.loadedUrl] is recorded from [page.url()] as usual. *)
Theorem unusable_response_is_not_classified this e p u e1 :
  (forall r, response (ctx e) <> StatusResponse r) ->
  page (ctx e) = Some p ->
  page_url K p e = (Ok u, e1) ->
  _responseHandler K this e
  = (Ok tt, set_loadedUrl (request (ctx e)) u e1,
     match sessionPool this, response (ctx e) with
     | Some _, MalformedResponse => [CLogDebug "Got a malformed Browser response."]
     | _, _ => []
     end ++ [CPageUrl p]).
Proof.
  intros Hr Hp Hurl. unfold _responseHandler. unfold bind at 1, get at 1.
  rewrite Hp.
  destruct (sessionPool this) as [sp|], (response (ctx e)) as [|r|] eqn:Hresp;
    try (by destruct (Hr r));
    unfold bind, ret, log_debug, call, defined, modify; simpl; rewrite Hurl; reflexivity.
Qed.

(** X9: when the response handler raises -- a blocked response, a failing
    [page.url()] -- the attempt fails with that error at once: the page's
    cookies are not captured, the handler is not invoked, the page is closed. *)
Theorem response_error_skips_capture_and_handler this e page request session e0 l0
    e1 l1 x e2 l2 :
  openPage K this e = (Ok (page, request, session), e0, l0) ->
  _handleNavigation this e0 = (Ok tt, e1, l1) ->
  _responseHandler K this e1 = (Throw x, e2, l2) ->
  outcome (_handleRequestFunction K this e) = Throw x /\
  log (_handleRequestFunction K this e) = l0 ++ (l1 ++ l2) ++ log (closePage K page e2) /\
  count save_call (log (_handleRequestFunction K this e)) = 0 /\
  count is_handlePage (log (_handleRequestFunction K this e)) = 0 /\
  count is_pageClose (log (_handleRequestFunction K this e)) = 1.
Proof.
  intros Hopen Hnav Hresp.
  assert (Hb : beforeHandler K this page request session e0 = (Throw x, e2, l1 ++ l2)).
  { unfold beforeHandler. rewrite (bind_ok _ _ _ _ _ _ Hnav).
    by rewrite (bind_throw _ _ _ _ _ _ Hresp). }
  rewrite (handleRequest_run K _ _ _ _ _ _ _ Hopen).
  rewrite (tryBlock_throws_before_handler K _ _ _ _ _ _ _ _ Hb). cbn zeta.
  unfold outcome, log, store. simpl.
  pose proof (closePage_calls K page e2) as Hc. unfold log in Hc.
  destruct (closePage_returns K page e2) as [_ Hone]. unfold log in Hone.
  repeat split.
  - rewrite !count_app.
    rewrite (log_never open_call save_call _ _ _ _ _ (openPage_calls K this)
               ltac:(by intros []) Hopen).
    rewrite (log_never _ save_call _ _ _ _ _ (handleNavigation_calls this)
               ltac:(by intros []) Hnav).
    rewrite (log_never _ save_call _ _ _ _ _ (responseHandler_calls K this)
               ltac:(by intros []) Hresp).
    by rewrite (forallb_count close_call save_call _ Hc ltac:(by intros [])).
  - rewrite !count_app.
    rewrite (log_never open_call is_handlePage _ _ _ _ _ (openPage_calls K this)
               ltac:(by intros []) Hopen).
    rewrite (log_never _ is_handlePage _ _ _ _ _ (handleNavigation_calls this)
               ltac:(by intros []) Hnav).
    rewrite (log_never _ is_handlePage _ _ _ _ _ (responseHandler_calls K this)
               ltac:(by intros []) Hresp).
    by rewrite (forallb_count close_call is_handlePage _ Hc ltac:(by intros [])).
  - rewrite !count_app.
    rewrite (log_never open_call is_pageClose _ _ _ _ _ (openPage_calls K this)
               ltac:(by intros []) Hopen).
    rewrite (log_never _ is_pageClose _ _ _ _ _ (handleNavigation_calls this)
               ltac:(by intros []) Hnav).
    rewrite (log_never _ is_pageClose _ _ _ _ _ (responseHandler_calls K this)
               ltac:(by intros []) Hresp).
    by rewrite Hone.
Qed.

(** *** The launch context *)

(** The run of [_extendLaunchContext] with a session pool and no proxy
    configuration. *)
Lemma extendLaunchContext_session_only this pageId lc e sp s e1 :
  additive_extend K ->
  sessionPool this = Some sp ->
  proxyConfiguration this = None ->
  getSession K e = (Ok s, e1) ->
  objects e1 lc !! "session" = None ->
  _extendLaunchContext K this pageId lc e
  = (Ok tt,
     set_objects (fun h => <[lc := <["session" := VSession s]> ∅ ∪ objects e1 lc]> h) e1,
     [CGetSession; CExtend lc (<["session" := VSession s]> ∅)]).
Proof.
  intros Hext Hsp Hpc Hget Hfresh. unfold _extendLaunchContext. rewrite Hsp, Hpc.
  unfold bind, call, ret, launchContext_extend. rewrite Hget. simpl.
  unfold call. rewrite Hext; [done|].
  apply map_disjoint_insert_l_2; [done|apply map_disjoint_empty_l].
Qed.

(** X10: without a proxy configuration no proxy info is requested and the
    launch context gets the session only: its other fields, [proxyUrl] and
    [proxyInfo] among them, stay as they were. *)
Theorem extendLaunchContext_without_proxy this pageId lc e sp s e1 :
  additive_extend K ->
  sessionPool this = Some sp ->
  proxyConfiguration this = None ->
  getSession K e = (Ok s, e1) ->
  objects e1 lc !! "session" = None ->
  log (_extendLaunchContext K this pageId lc e)
  = [CGetSession; CExtend lc (<["session" := VSession s]> ∅)] /\
  prop (objects (store (_extendLaunchContext K this pageId lc e)) lc) "session"
  = VSession s /\
  forall key, key <> "session" ->
    objects (store (_extendLaunchContext K this pageId lc e)) lc !! key
    = objects e1 lc !! key.
Proof.
  intros Hext Hsp Hpc Hget Hfresh.
  rewrite (extendLaunchContext_session_only _ _ _ _ _ _ _ Hext Hsp Hpc Hget Hfresh).
  unfold log, store, prop. simpl. rewrite fn_lookup_insert. repeat split.
  - by rewrite (lookup_union_Some_l _ _ _ (VSession s)) by by simplify_map_eq.
  - intros key Hkey. rewrite lookup_union_r; [done|]. by rewrite lookup_insert_ne.
Qed.

(** X11: when the proxy configuration fails to give a proxy info, the error is
    that of [_extendLaunchContext]; the session has been taken from the pool
    already, but the launch context is not written to and [extend] is not
    called. *)
Theorem extendLaunchContext_proxy_error this pageId lc e sp pc s e1 x e2 :
  sessionPool this = Some sp ->
  proxyConfiguration this = Some pc ->
  getSession K e = (Ok s, e1) ->
  newProxyInfo K (Some (session_id s)) e1 = (Throw x, e2) ->
  _extendLaunchContext K this pageId lc e
  = (Throw x, e2, [CGetSession; CNewProxyInfo (Some (session_id s))]).
Proof.
  intros Hsp Hpc Hget Hnew. unfold _extendLaunchContext. rewrite Hsp, Hpc.
  unfold bind, call, ret, session_and_id, prop. rewrite Hget. simpl.
  rewrite lookup_insert_eq. simpl. by rewrite Hnew.
Qed.

(** X12: [proxyUrl] is written before [extend] is called: when [extend] throws,
    the launch context already carries the proxy url, and neither the session
    nor the proxy info. *)
Theorem extendLaunchContext_extend_error this pageId lc e sp pc s e1 pi e2 x :
  sessionPool this = Some sp ->
  proxyConfiguration this = Some pc ->
  getSession K e = (Ok s, e1) ->
  newProxyInfo K (Some (session_id s)) e1 = (Ok pi, e2) ->
  extend K (<["proxyUrl" := VStr (proxy_url pi)]> (objects e2 lc))
    (<["proxyInfo" := VProxyInfo pi]> (<["session" := VSession s]> ∅)) = Throw x ->
  outcome (_extendLaunchContext K this pageId lc e) = Throw x /\
  objects (store (_extendLaunchContext K this pageId lc e)) lc
  = <["proxyUrl" := VStr (proxy_url pi)]> (objects e2 lc).
Proof.
  intros Hsp Hpc Hget Hnew Hext. unfold _extendLaunchContext. rewrite Hsp, Hpc.
  unfold bind, call, ret, modify, launchContext_extend, session_and_id, prop.
  rewrite Hget. simpl. rewrite lookup_insert_eq. simpl. rewrite Hnew. simpl.
  unfold call. simpl. rewrite fn_lookup_insert, Hext.
  unfold outcome, store. simpl. by rewrite fn_lookup_insert.
Qed.

(** The run of [_extendLaunchContext] with a session pool and a proxy
    configuration. *)
Lemma extendLaunchContext_session_and_proxy this pageId lc e sp pc s e1 pi e2 :
  additive_extend K ->
  sessionPool this = Some sp ->
  proxyConfiguration this = Some pc ->
  getSession K e = (Ok s, e1) ->
  newProxyInfo K (Some (session_id s)) e1 = (Ok pi, e2) ->
  objects e2 lc !! "session" = None ->
  objects e2 lc !! "proxyInfo" = None ->
  outcome (_extendLaunchContext K this pageId lc e) = Ok tt /\
  objects (store (_extendLaunchContext K this pageId lc e)) lc
  = <["proxyInfo" := VProxyInfo pi]> (<["session" := VSession s]> ∅)
      ∪ <["proxyUrl" := VStr (proxy_url pi)]> (objects e2 lc).
Proof.
  intros Hext Hsp Hpc Hget Hnew Hs Hp. unfold _extendLaunchContext. rewrite Hsp, Hpc.
  unfold bind, call, ret, modify, launchContext_extend, session_and_id, prop.
  rewrite Hget. simpl. rewrite lookup_insert_eq. simpl. rewrite Hnew. simpl.
  unfold call. simpl. rewrite fn_lookup_insert. rewrite Hext.
  2:{ apply map_disjoint_insert_l_2; [by rewrite lookup_insert_ne|].
      apply map_disjoint_insert_l_2; [by rewrite lookup_insert_ne|].
      apply map_disjoint_empty_l. }
  unfold outcome, store. simpl. by rewrite fn_lookup_insert.
Qed.

(** X13: what [_extendLaunchContext] binds at launch is what an attempt on a
    page of that browser sees: the context's session is the one the pool
    handed out, and its proxy info the one requested for that session. *)
Theorem launch_then_enhance this pageId bc e sp pc s e1 pi e2 page :
  additive_extend K ->
  sessionPool this = Some sp ->
  proxyConfiguration this = Some pc ->
  getSession K e = (Ok s, e1) ->
  newProxyInfo K (Some (session_id s)) e1 = (Ok pi, e2) ->
  objects e2 (launchContext bc) !! "session" = None ->
  objects e2 (launchContext bc) !! "proxyInfo" = None ->
  getBrowserControllerByPage K page
    (set_ctx (with_page (Some page))
       (store (_extendLaunchContext K this pageId (launchContext bc) e))) = Some bc ->
  outcome (_enhanceCrawlingContextWithPageInfo K page
             (store (_extendLaunchContext K this pageId (launchContext bc) e))) = Ok tt /\
  BrowserCrawler.page
    (ctx (store (_enhanceCrawlingContextWithPageInfo K page
                   (store (_extendLaunchContext K this pageId (launchContext bc) e)))))
  = Some page /\
  browserController
    (ctx (store (_enhanceCrawlingContextWithPageInfo K page
                   (store (_extendLaunchContext K this pageId (launchContext bc) e)))))
  = Some bc /\
  session
    (ctx (store (_enhanceCrawlingContextWithPageInfo K page
                   (store (_extendLaunchContext K this pageId (launchContext bc) e)))))
  = VSession s /\
  proxyInfo
    (ctx (store (_enhanceCrawlingContextWithPageInfo K page
                   (store (_extendLaunchContext K this pageId (launchContext bc) e)))))
  = VProxyInfo pi.
Proof.
  intros Hext Hsp Hpc Hget Hnew Hs Hp Hbc.
  destruct (extendLaunchContext_session_and_proxy this pageId (launchContext bc) e
              sp pc s e1 pi e2 Hext Hsp Hpc Hget Hnew Hs Hp) as [_ Hlc].
  revert Hbc Hlc.
  generalize (store (_extendLaunchContext K this pageId (launchContext bc) e)).
  intros e' Hbc Hlc.
  unfold _enhanceCrawlingContextWithPageInfo, bind, modify, call, defined, get, ret.
  simpl. rewrite Hbc. unfold outcome, store. simpl. rewrite Hlc. unfold prop.
  rewrite (lookup_union_Some_l _ _ _ (VSession s)) by by simplify_map_eq.
  by rewrite (lookup_union_Some_l _ _ _ (VProxyInfo pi)) by by simplify_map_eq.
Qed.

(** *** Listeners *)

(** X14: a browser launched with the crawler's hooks is retired when the session
    it was launched with is: after [_extendLaunchContext] bound the pool's
    session to the launch context and [_maybeAddSessionRetiredListener]
    registered the controller, a retirement event for that session flags the
    launch context and calls [retireBrowserController] for the controller,
    once. *)
Theorem launch_then_session_retired this pageId bc e sp s e1 :
  additive_extend K ->
  sessionPool this = Some sp ->
  proxyConfiguration this = None ->
  getSession K e = (Ok s, e1) ->
  objects e1 (launchContext bc) !! "session" = None ->
  objects e1 (launchContext bc) !! "sessionRetired" = None ->
  Forall (bound_elsewhere (store (_extendLaunchContext K this pageId (launchContext bc) e)) s)
    (retiredListeners e1) ->
  log (emit_sessionRetired K this s
         (installed this pageId bc
            (store (_extendLaunchContext K this pageId (launchContext bc) e))))
  = [CExtend (launchContext bc) {["sessionRetired" := VBool true]};
     CRetireBrowserController bc].
Proof.
  intros Hext Hsp Hpc Hget Hs Hflag Hothers. revert Hothers.
  rewrite (extendLaunchContext_session_only _ _ _ _ _ _ _ Hext Hsp Hpc Hget Hs).
  unfold store at 1 2. cbn [fst snd]. intros Hothers.
  set (e' := set_objects _ e1) in *.
  unfold installed, _maybeAddSessionRetiredListener. rewrite Hsp.
  unfold modify, store. cbn [fst snd].
  unfold emit_sessionRetired. unfold bind at 1, get at 1.
  cbn [retiredListeners set_listeners].
  rewrite run_listeners_elsewhere by exact Hothers. simpl.
  assert (Hbound : prop (objects e' (launchContext bc)) "session" = VSession s).
  { unfold e', prop. simpl. rewrite fn_lookup_insert.
    by rewrite (lookup_union_Some_l _ _ _ (VSession s)) by by simplify_map_eq. }
  assert (Hfresh : objects e' (launchContext bc) !! "sessionRetired" = None).
  { unfold e'. simpl. rewrite fn_lookup_insert.
    rewrite lookup_union_r; [done|]. by rewrite lookup_insert_ne. }
  match goal with
  | |- context [bind (listener K this bc s) _ ?E] =>
      pose proof (listener_matching K this E s bc s Hext Hbound eq_refl Hfresh) as Hl
  end.
  unfold bind. rewrite Hl.
  by destruct (retireBrowserController K bc _) as [[[]|x] e2].
Qed.

Lemma removeListener_before_last ls lid bc l :
  l.1 <> lid -> removeListener lid (ls ++ [(lid, bc); l]) = ls ++ [l].
Proof.
  intros Hne. unfold removeListener.
  change (ls ++ [(lid, bc); l]) with (ls ++ [(lid, bc)] ++ [l]).
  rewrite app_assoc, !rev_app_distr. simpl.
  rewrite bool_decide_eq_false_2 by done. rewrite bool_decide_eq_true_2 by done.
  simpl. by rewrite rev_involutive.
Qed.

(** X15: when one browser closes, only its own listener is removed: of two
    controllers registered one after the other, the second is still
    registered after the first has emitted browserClosed. *)
Theorem closing_one_browser_keeps_other_listener (this : Crawler Ext) p1 p2 bc1 bc2 e sp :
  sessionPool this = Some sp ->
  bc1 <> bc2 ->
  Forall (fun l => l.1 <> bc1) (closedListeners e) ->
  outcome (emit_browserClosed bc1
             (installed this p2 bc2 (installed this p1 bc1 e))) = Ok tt /\
  retiredListeners
    (store (emit_browserClosed bc1 (installed this p2 bc2 (installed this p1 bc1 e))))
  = retiredListeners e ++ [(S (nextListener e), bc2)] /\
  objects
    (store (emit_browserClosed bc1 (installed this p2 bc2 (installed this p1 bc1 e))))
  = objects e.
Proof.
  intros Hsp Hne Hnew.
  assert (Hinst : forall p bc e0, installed this p bc e0
                  = set_listeners (retiredListeners e0 ++ [(nextListener e0, bc)])
                      (closedListeners e0 ++ [(bc, nextListener e0)])
                      (S (nextListener e0)) e0).
  { intros p bc e0. unfold installed, _maybeAddSessionRetiredListener. by rewrite Hsp. }
  rewrite !Hinst. cbn [closedListeners retiredListeners nextListener set_listeners].
  match goal with
  | |- context [emit_browserClosed bc1 ?E] =>
      assert (Hrun : exists cl n, emit_browserClosed bc1 E
                = (Ok tt, set_listeners (retiredListeners e ++ [(S (nextListener e), bc2)])
                            cl n E, []))
  end.
  { unfold emit_browserClosed. unfold bind at 1, get at 1.
    cbn [closedListeners set_listeners].
    rewrite <- (app_assoc (closedListeners e)).
    rewrite run_closed_skip by exact Hnew.
    cbn [run_closed app fst snd]. rewrite bool_decide_eq_true_2 by done.
    rewrite bool_decide_eq_false_2 by (by intros Heq; apply Hne).
    unfold bind, modify, ret.
    cbn [fst snd retiredListeners closedListeners nextListener set_listeners app].
    rewrite <- (app_assoc (retiredListeners e)). cbn [app].
    rewrite removeListener_before_last by (simpl; lia). eauto. }
  destruct Hrun as (cl & n & ->). done.
Qed.

(** X16: the listener reads [launchContext.session.id] unguarded: when the launch
    context of a registered controller holds no session, every retirement
    event ends in a [TypeError] at that listener, nothing is retired there,
    and the listeners registered after it are not run. *)
Theorem listener_without_session_breaks_emit this e session ls1 lid bc ls2 :
  retiredListeners e = ls1 ++ (lid, bc) :: ls2 ->
  Forall (bound_elsewhere e session) ls1 ->
  prop (objects e (launchContext bc)) "session" = VUndefined ->
  emit_sessionRetired K this session e = (Throw TypeError, e, []).
Proof.
  intros Hls Hothers Hnone. unfold emit_sessionRetired. unfold bind at 1, get at 1.
  rewrite Hls, run_listeners_elsewhere by exact Hothers. simpl.
  unfold listener, bind, get, session_id_of. simpl. by rewrite Hnone.
Qed.

(** *** The constructor *)

(** X17: cookie persistence is on unless it is switched off: options that switch
    the session pool off and do not switch cookie persistence off are
    rejected with the configuration error, before anything is created. *)
Theorem constructor_requires_explicit_opt_out options e :
  ow K options = None ->
  opt_useSessionPool options = Some false ->
  opt_persistCookiesPerSession options <> Some false ->
  constructor K options e = (Throw (JsError configurationMessage), e, []).
Proof.
  intros How Hu Hp. unfold constructor. rewrite How, Hu.
  destruct (opt_persistCookiesPerSession options) as [[]|]; done.
Qed.

(** X18: what a constructed crawler is: [super] was called first (with the
    handler timeout times the multiplier), then the session pool was made and
    given its listener limit if the pool is in use, then the browser pool; the
    timeout in milliseconds is a thousand times the one in seconds; the
    crawler has a session pool exactly when [useSessionPool] is not [false],
    and it persists cookies only if it has one. *)
Theorem constructor_builds options e this e' l :
  constructor K options e = (Ok this, e', l) ->
  l = CSuper (default 60 (opt_handlePageTimeoutSecs options)
              * BASIC_CRAWLER_TIMEOUT_MULTIPLIER K)%float
      :: match sessionPool this with
         | Some _ => [CNewSessionPool; CSetMaxListeners 20]
         | None => []
         end
      ++ [CNewBrowserPool] /\
  handlePageTimeoutMillis this
  = (default 60 (opt_handlePageTimeoutSecs options) * 1000)%float /\
  (is_Some (sessionPool this) <-> opt_useSessionPool options <> Some false) /\
  (persistCookiesPerSession this = true -> is_Some (sessionPool this)) /\
  preNavigationHooks this = default [] (opt_preNavigationHooks options) /\
  postNavigationHooks this = default [] (opt_postNavigationHooks options).
Proof.
  unfold constructor. destruct (ow K options); [discriminate|].
  destruct (opt_useSessionPool options) as [[]|],
           (opt_persistCookiesPerSession options) as [[]|]; simpl;
    try discriminate.
  all: unfold bind, call, ret.
  all: destruct (super_BasicCrawler K _ e) as [[[]|?] ?]; try discriminate.
  all: try (destruct (new_SessionPool K _) as [[?|?] ?]; try discriminate).
  all: destruct (new_BrowserPool K _) as [[?|?] ?]; try discriminate.
  all: intros [= <- _ <-]; simpl; repeat split; eauto; try done.
  all: try (by intros [? [=]]).
  all: try (by intros []).
Qed.

(** The calls of an attempt of a crawler without session pool and without
    cookie persistence. *)
Lemma attempt_calls_without_pool this :
  sessionPool this = None ->
  persistCookiesPerSession this = false ->
  calls_within (fun c => negb (session_pool_call c)) (_handleRequestFunction K this).
Proof.
  intros Hsp Hp. unfold _handleRequestFunction.
  apply within_bind.
  { unfold openPage, _enhanceCrawlingContextWithPageInfo, defined. rewrite Hp. calls. }
  intros [[page request] session]. apply within_try_finally;
    [|eapply within_weaken; [apply closePage_calls|by intros []]].
  unfold tryBlock, beforeHandler. rewrite Hp.
  apply within_bind; [|intros _; apply within_bind; [|intros _]].
  - apply within_bind;
      [eapply within_weaken; [apply handleNavigation_calls|by intros []]|intros _].
    apply within_bind; [|intros _; apply within_ret].
    unfold _responseHandler. rewrite Hsp. unfold defined. calls.
  - eapply within_weaken; [apply runHandlePageFunction_calls|by intros []].
  - eapply within_weaken; [apply markSessionGood_calls|by intros []].
Qed.

(** X19: a crawler constructed with [useSessionPool: false] makes no call on
    behalf of a session pool, in any attempt: no cookie is read or written, no
    response status read, no session retired. *)
Theorem no_session_pool_calls_when_constructed_without options e this e' l e0 :
  constructor K options e = (Ok this, e', l) ->
  opt_useSessionPool options = Some false ->
  count session_pool_call (log (_handleRequestFunction K this e0)) = 0.
Proof.
  intros Hc Hu.
  destruct (constructor_fields K _ _ _ _ _ Hc) as (_ & _ & _ & Hpool & Hpersist).
  assert (Hsp : sessionPool this = None).
  { destruct (sessionPool this) as [sp|] eqn:E; [|done].
    rewrite Hu in Hpool. destruct Hpool as [Hpool _].
    by specialize (Hpool (ex_intro _ sp eq_refl)). }
  assert (Hp : persistCookiesPerSession this = false).
  { destruct (persistCookiesPerSession this); [|done].
    destruct (Hpersist eq_refl) as [sp Hsome]. by rewrite Hsp in Hsome. }
  apply (forallb_count _ session_pool_call _ (attempt_calls_without_pool this Hsp Hp e0)).
  intros c. by destruct (session_pool_call c).
Qed.

End MoreProperties.

Import MoreExamples.

(** X2, at a concrete case. *)
Lemma close_error_witness :
  _handleRequestFunction (K1 true false false false)
    (crawler0 false (Some 1) [] (Settles 10 (Throw (JsError "handler failed"))))
    (env0 withSession)
  = (Throw (JsError "handler failed"),
     store (tryBlock (K1 true false false false)
              (crawler0 false (Some 1) [] (Settles 10 (Throw (JsError "handler failed"))))
              7 0 (VSession s1)
              (store (openPage (K1 true false false false)
                        (crawler0 false (Some 1) []
                           (Settles 10 (Throw (JsError "handler failed"))))
                        (env0 withSession)))),
     [CNewPage "attempt-1"; CGetBrowserControllerByPage 7; CGotoFunction 1; CStatus 0;
      CPageUrl 7; CHandlePageFunction; CPageClose 7;
      CLogDebug "Error while closing page"]).
Proof.
  rewrite (close_error_is_logged_not_raised (K1 true false false false)
             (crawler0 false (Some 1) [] (Settles 10 (Throw (JsError "handler failed"))))
             (env0 withSession) 7 0 (VSession s1) _ _ (JsError "Protocol error") _
             eq_refl eq_refl).
  reflexivity.
Defined.

(** X3, at a concrete case. *)
Lemma successful_attempt_witness :
  exists page request session e0 l0,
    openPage (K0 false 200) (crawler0 true (Some 1) [] (Settles 10 (Ok tt)))
      (env0 withSession) = (Ok (page, request, session), e0, l0) /\
    count is_handlePage
      (log (_handleRequestFunction (K0 false 200)
              (crawler0 true (Some 1) [] (Settles 10 (Ok tt))) (env0 withSession))) = 1 /\
    count is_markGood
      (log (_handleRequestFunction (K0 false 200)
              (crawler0 true (Some 1) [] (Settles 10 (Ok tt))) (env0 withSession)))
    = (if truthy session then 1 else 0) /\
    count is_pageClose
      (log (_handleRequestFunction (K0 false 200)
              (crawler0 true (Some 1) [] (Settles 10 (Ok tt))) (env0 withSession))) = 1.
Proof.
  apply (successful_attempt (K0 false 200) (crawler0 true (Some 1) [] (Settles 10 (Ok tt)))
           (env0 withSession)). reflexivity.
Defined.

(** X4, at a concrete case. *)
Lemma handler_error_witness :
  outcome (_handleRequestFunction (K0 false 200)
             (crawler0 true (Some 1) [] (Settles 10 (Throw (JsError "handler failed"))))
             (env0 withSession)) = Throw (JsError "handler failed") /\
  count is_markGood
    (log (_handleRequestFunction (K0 false 200)
            (crawler0 true (Some 1) [] (Settles 10 (Throw (JsError "handler failed"))))
            (env0 withSession))) = 0 /\
  count is_pageClose
    (log (_handleRequestFunction (K0 false 200)
            (crawler0 true (Some 1) [] (Settles 10 (Throw (JsError "handler failed"))))
            (env0 withSession))) = 1.
Proof.
  edestruct (handler_error_fails_attempt (K0 false 200)
               (crawler0 true (Some 1) [] (Settles 10 (Throw (JsError "handler failed"))))
               (env0 withSession)) as (Ho & _ & Hm & Hc); [reflexivity..|].
  rewrite Ho, Hm, Hc. repeat split.
Defined.

(** X5, at a concrete case. *)
Lemma missing_gotoFunction_witness :
  outcome (_handleRequestFunction (K0 false 200) crawlerNoGoto (env0 ∅))
  = Throw (JsError "BrowserCrawler: You must specify a gotoFunction!") /\
  log (_handleRequestFunction (K0 false 200) crawlerNoGoto (env0 ∅))
  = [CNewPage "attempt-1"; CGetBrowserControllerByPage 7; CHook "A" 1; CPageClose 7].
Proof.
  edestruct (missing_gotoFunction_fails_after_hooks (K0 false 200) crawlerNoGoto (env0 ∅))
    as (Ho & Hl & _); [reflexivity..|].
  rewrite Ho, Hl. repeat split.
Defined.

(** X6, at a concrete case. *)
Lemma no_cookie_calls_witness :
  count cookie_call
    (log (_handleRequestFunction (K0 false 200)
            (crawler0 false (Some 1) [] (Settles 10 (Ok tt))) (env0 withSession))) = 0.
Proof.
  apply (no_cookie_calls_without_persistence (K0 false 200)
           (crawler0 false (Some 1) [] (Settles 10 (Ok tt))) (env0 withSession)).
  reflexivity.
Defined.

(** X7, at a concrete case. *)
Lemma attempt_without_controller_witness :
  outcome (_handleRequestFunction (K1 false true false false)
             (crawler0 true (Some 1) [] (Settles 10 (Ok tt))) (env0 withSession))
  = Throw TypeError /\
  log (_handleRequestFunction (K1 false true false false)
             (crawler0 true (Some 1) [] (Settles 10 (Ok tt))) (env0 withSession))
  = [CNewPage "attempt-1"; CGetBrowserControllerByPage 7].
Proof.
  rewrite (attempt_fails_without_controller (K1 false true false false)
             (crawler0 true (Some 1) [] (Settles 10 (Ok tt))) (env0 withSession)
             7 (env0 withSession) eq_refl eq_refl).
  split; reflexivity.
Defined.

(** X8, at a concrete case. *)
Lemma unusable_response_witness :
  _responseHandler (K0 false 403) crawlerMalformed
    (store (_handleNavigation crawlerMalformed
              (store (openPage (K0 false 403) crawlerMalformed (env0 withSession)))))
  = (Ok tt,
     set_loadedUrl 0 "http://a.test/redirected"
       (store (_handleNavigation crawlerMalformed
                 (store (openPage (K0 false 403) crawlerMalformed (env0 withSession))))),
     [CLogDebug "Got a malformed Browser response."; CPageUrl 7]).
Proof.
  rewrite (unusable_response_is_not_classified (K0 false 403) crawlerMalformed
             (store (_handleNavigation crawlerMalformed
                       (store (openPage (K0 false 403) crawlerMalformed
                                 (env0 withSession)))))
             7 "http://a.test/redirected" _ ltac:(discriminate) eq_refl eq_refl).
  reflexivity.
Defined.

(** X9, at a concrete case. *)
Lemma response_error_witness :
  outcome (_handleRequestFunction (K0 false 403)
             (crawler0 true (Some 1) [] (Settles 10 (Ok tt))) (env0 withSession))
  = Throw (JsError "Request blocked - received 403 status code.") /\
  count save_call
    (log (_handleRequestFunction (K0 false 403)
            (crawler0 true (Some 1) [] (Settles 10 (Ok tt))) (env0 withSession))) = 0 /\
  count is_handlePage
    (log (_handleRequestFunction (K0 false 403)
            (crawler0 true (Some 1) [] (Settles 10 (Ok tt))) (env0 withSession))) = 0.
Proof.
  edestruct (response_error_skips_capture_and_handler (K0 false 403)
               (crawler0 true (Some 1) [] (Settles 10 (Ok tt))) (env0 withSession))
    as (Ho & _ & Hs & Hh & _); [reflexivity..|].
  rewrite Ho, Hs, Hh. repeat split.
Defined.

(** X10, at a concrete case. *)
Lemma extendLaunchContext_without_proxy_witness :
  log (_extendLaunchContext (K0 false 200) (crawler0 true (Some 1) [] (Settles 10 (Ok tt)))
         "page-1" 0 (env0 ∅))
  = [CGetSession; CExtend 0 (<["session" := VSession s1]> ∅)] /\
  objects (store (_extendLaunchContext (K0 false 200)
                    (crawler0 true (Some 1) [] (Settles 10 (Ok tt))) "page-1" 0 (env0 ∅)))
    0 !! "proxyUrl" = None.
Proof.
  edestruct (extendLaunchContext_without_proxy (K0 false 200)
               (crawler0 true (Some 1) [] (Settles 10 (Ok tt))) "page-1" 0 (env0 ∅)
               1 s1 (env0 ∅) (additive_extend_K0 false 200)) as (Hlog & _ & Hrest);
    [reflexivity..|].
  rewrite Hlog, (Hrest "proxyUrl" ltac:(discriminate)). split; reflexivity.
Defined.

(** X11, at a concrete case. *)
Lemma extendLaunchContext_proxy_error_witness :
  _extendLaunchContext (K1 false false true false) (crawlerProxy (Some 1)) "page-1" 0 (env0 ∅)
  = (Throw (JsError "no proxy"), env0 ∅, [CGetSession; CNewProxyInfo (Some "s1")]).
Proof.
  apply (extendLaunchContext_proxy_error (K1 false false true false) (crawlerProxy (Some 1))
           "page-1" 0 (env0 ∅) 1 3 s1 (env0 ∅)); reflexivity.
Defined.

(** X12, at a concrete case. *)
Lemma extendLaunchContext_extend_error_witness :
  outcome (_extendLaunchContext (K1 false false false true) (crawlerProxy (Some 1))
             "page-1" 0 (env0 ∅)) = Throw (JsError "cannot extend") /\
  objects (store (_extendLaunchContext (K1 false false false true) (crawlerProxy (Some 1))
                    "page-1" 0 (env0 ∅))) 0
  = <["proxyUrl" := VStr "http://proxy.test:8000"]> ∅.
Proof.
  edestruct (extendLaunchContext_extend_error (K1 false false false true)
               (crawlerProxy (Some 1)) "page-1" 0 (env0 ∅)) as (Ho & Hlc);
    [reflexivity..|].
  rewrite Ho, Hlc. split; reflexivity.
Defined.

(** X13, at a concrete case. *)
Lemma launch_then_enhance_witness :
  session (ctx (store (_enhanceCrawlingContextWithPageInfo (K0 false 200) 7
                  (store (_extendLaunchContext (K0 false 200) (crawlerProxy (Some 1))
                            "page-1" (launchContext bc1) (env0 ∅))))))
  = VSession s1 /\
  proxyInfo (ctx (store (_enhanceCrawlingContextWithPageInfo (K0 false 200) 7
                  (store (_extendLaunchContext (K0 false 200) (crawlerProxy (Some 1))
                            "page-1" (launchContext bc1) (env0 ∅))))))
  = VProxyInfo {| proxy_url := "http://proxy.test:8000"; proxy_sessionId := Some "s1" |}.
Proof.
  edestruct (launch_then_enhance (K0 false 200) (crawlerProxy (Some 1)) "page-1" bc1
               (env0 ∅) 1 3 s1 (env0 ∅)
               {| proxy_url := "http://proxy.test:8000"; proxy_sessionId := Some "s1" |}
               (env0 ∅) 7 (additive_extend_K0 false 200))
    as (_ & _ & _ & Hs & Hp); [reflexivity..|].
  rewrite Hs, Hp. split; reflexivity.
Defined.

(** X14, at a concrete case. *)
Lemma launch_then_session_retired_witness :
  log (emit_sessionRetired (K0 false 200) (crawler0 true (Some 1) [] (Settles 10 (Ok tt))) s1
         (installed (crawler0 true (Some 1) [] (Settles 10 (Ok tt))) "page-1" bc1
            (store (_extendLaunchContext (K0 false 200)
                      (crawler0 true (Some 1) [] (Settles 10 (Ok tt)))
                      "page-1" (launchContext bc1) (env0 ∅)))))
  = [CExtend (launchContext bc1) {["sessionRetired" := VBool true]};
     CRetireBrowserController bc1].
Proof.
  apply (launch_then_session_retired (K0 false 200)
           (crawler0 true (Some 1) [] (Settles 10 (Ok tt))) "page-1" bc1 (env0 ∅) 1 s1
           (env0 ∅) (additive_extend_K0 false 200));
    [reflexivity..|apply List.Forall_nil].
Defined.

(** X15, at a concrete case. *)
Lemma closing_one_browser_witness :
  retiredListeners
    (store (emit_browserClosed bc1
              (installed (crawler0 true (Some 1) [] (Settles 10 (Ok tt))) "page-2" bc2
                 (installed (crawler0 true (Some 1) [] (Settles 10 (Ok tt))) "page-1" bc1
                    env2))))
  = [(1, bc2)].
Proof.
  destruct (closing_one_browser_keeps_other_listener
              (crawler0 true (Some 1) [] (Settles 10 (Ok tt))) "page-1" "page-2" bc1 bc2
              env2 1 eq_refl ltac:(discriminate) (List.Forall_nil _)) as (_ & Hl & _).
  rewrite Hl. reflexivity.
Defined.

(** X16, at a concrete case. *)
Lemma listener_without_session_witness :
  emit_sessionRetired (K0 false 200) (crawler0 true (Some 1) [] (Settles 10 (Ok tt))) s1
    (installed (crawler0 true (Some 1) [] (Settles 10 (Ok tt))) "page-1" bc1 (env0 ∅))
  = (Throw TypeError,
     installed (crawler0 true (Some 1) [] (Settles 10 (Ok tt))) "page-1" bc1 (env0 ∅), []).
Proof.
  apply (listener_without_session_breaks_emit (K0 false 200)
           (crawler0 true (Some 1) [] (Settles 10 (Ok tt)))
           (installed (crawler0 true (Some 1) [] (Settles 10 (Ok tt))) "page-1" bc1 (env0 ∅))
           s1 [] 0 bc1 []); [reflexivity|apply List.Forall_nil|reflexivity].
Defined.

(** X17, at a concrete case. *)
Lemma constructor_opt_out_witness :
  constructor (K0 false 200) (optionsWithoutPool None) (env0 ∅)
  = (Throw (JsError configurationMessage), env0 ∅, []).
Proof.
  apply (constructor_requires_explicit_opt_out (K0 false 200) (optionsWithoutPool None)
           (env0 ∅)); [reflexivity|reflexivity|discriminate].
Defined.

(** X18, at a concrete case. *)
Lemma constructor_builds_witness :
  [CSuper 10; CNewSessionPool; CSetMaxListeners 20; CNewBrowserPool]
  = CSuper (default 60 (opt_handlePageTimeoutSecs (options0 (Settles 10 (Ok tt))))
            * BASIC_CRAWLER_TIMEOUT_MULTIPLIER (K0 false 200))%float
    :: match sessionPool (crawler0 true (Some 1) [] (Settles 10 (Ok tt))) with
       | Some _ => [CNewSessionPool; CSetMaxListeners 20]
       | None => []
       end ++ [CNewBrowserPool] /\
  handlePageTimeoutMillis (crawler0 true (Some 1) [] (Settles 10 (Ok tt)))
  = (default 60 (opt_handlePageTimeoutSecs (options0 (Settles 10 (Ok tt)))) * 1000)%float.
Proof.
  destruct (constructor_builds (K0 false 200) (options0 (Settles 10 (Ok tt))) (env0 ∅)
              (crawler0 true (Some 1) [] (Settles 10 (Ok tt))) (env0 ∅)
              [CSuper 10; CNewSessionPool; CSetMaxListeners 20; CNewBrowserPool] eq_refl)
    as (Hl & Hm & _).
  split; [exact Hl|exact Hm].
Defined.

(** X19, at a concrete case. *)
Lemma no_session_pool_calls_witness :
  count session_pool_call
    (log (_handleRequestFunction (K0 false 403) crawlerWithoutPool (env0 ∅))) = 0.
Proof.
  apply (no_session_pool_calls_when_constructed_without (K0 false 403)
           (optionsWithoutPool (Some false)) (env0 ∅) crawlerWithoutPool (env0 ∅)
           [CSuper 600; CNewBrowserPool] (env0 ∅)); reflexivity.
Defined.

End BrowserCrawler.
